(** * CF streak bot: the daily-streak check and the reminder dedup engine

    A shallow embedding of [main.py].  The in-memory store [DB] is a finite
    map from user ids to records, the data file holds a JSON document, and the
    outside world (clock, zone database, submission feed, message delivery) is
    made explicit:

    - [Env] is the configuration and the zone database of one deployment:
      [pytz.all_timezones], the value of [DEFAULT_TZ], the UTC offset of
      every zone at every instant, and the offset of the zone of the host
      process, which is what [date.today()] reads;
    - [World] is what one sweep observes: the clock, the answers of the
      submission feed and the outcome of every delivery attempt.

    A sweep returns the new store together with the trace of the network
    events it caused, so that "no feed request" and "at most one message" are
    statements about that trace.  A sweep is run to its end without another
    handler in between, and reads the clock once: it is short against the
    length of a day. *)

From Stdlib Require Import ZArith Lia Ascii.
From stdpp Require Import base gmap strings list fin_maps.

Local Open Scope Z_scope.

(** ** Calendar dates *)

Module Dates.

(** A calendar date is the number of days since 1970-01-01 (proleptic
    Gregorian), the same information as a [datetime.date]. *)
Definition date := Z.

(** [datetime.fromtimestamp(ts, tz).date()] for a zone that is [offset]
    seconds east of UTC at that instant. *)
Definition date_of_timestamp (offset ts : Z) : date := (ts + offset) / 86400.

(** Year, month and day of a day number. *)
Definition civil_from_days (days : date) : Z * Z * Z :=
  let z := days + 719468 in
  let era := z / 146097 in
  let doe := z - era * 146097 in
  let yoe := (doe - doe / 1460 + doe / 36524 - doe / 146096) / 365 in
  let doy := doe - (365 * yoe + yoe / 4 - yoe / 100) in
  let mp := (5 * doy + 2) / 153 in
  let d := doy - (153 * mp + 2) / 5 + 1 in
  let m := if mp <? 10 then mp + 3 else mp - 9 in
  let y := yoe + era * 400 + (if m <=? 2 then 1 else 0) in
  (y, m, d).

Definition digit (n : Z) : ascii := ascii_of_nat (48 + Z.to_nat (n mod 10)).

Definition pad2 (n : Z) : string :=
  String (digit (n / 10)) (String (digit n) EmptyString).

Definition pad4 (n : Z) : string :=
  String (digit (n / 1000)) (String (digit (n / 100)) (pad2 n)).

(** The seconds that a [datetime] can hold: from 0001-01-01 00:00:00 to
    9999-12-31 23:59:59, counted from 1970-01-01 00:00:00. *)
Definition datetime_min : Z := -62135596800.
Definition datetime_max : Z := 253402300799.

Definition in_datetime_range (seconds : Z) : bool :=
  (datetime_min <=? seconds) && (seconds <=? datetime_max).

(** [date.isoformat()]: YYYY-MM-DD. *)
Definition isoformat (d : date) : string :=
  let '(y, m, dd) := civil_from_days d in
  pad4 y +:+ "-" +:+ pad2 m +:+ "-" +:+ pad2 dd.

End Dates.

Import Dates.

(** ** Configuration and zone database *)

(** [all_timezones] is [pytz.all_timezones]; [DEFAULT_TZ] is the value read
    from the environment variable [LOCAL_TZ] (or its literal fallback);
    [utcoffset name ts] is the offset in seconds of zone [name] at the instant
    [ts], as [tz_get(name)] applies it; [host_utcoffset ts] is the offset of
    the local zone of the host process, the zone of [date.today()].  Nothing
    in the program links the host zone to [DEFAULT_TZ].  [DEFAULT_TZ] names
    a zone that [tz_get] knows, and the clock of the process shows an
    instant within the range of [datetime]; the timestamps that the feed
    delivers are integers of any size, and converting one that [datetime]
    cannot hold raises. *)
Record Env := {
  all_timezones : list string;
  DEFAULT_TZ : string;
  utcoffset : string → Z → Z;
  host_utcoffset : Z → Z
}.

Definition REMINDER_TIMES : list string := ["08:00"; "12:00"; "22:00"].

(** ** Persistence *)

(** A user record.  [last_notified] keeps the dataclass default [None]
    apart from an empty dictionary. *)
Record UserRecord := {
  handle : option string;
  timezone : string;
  last_notified : option (gmap string string)
}.

(** The values of a parsed JSON document that the data file can hold.  An
    object is a dictionary as Python compares dictionaries: by the values
    under the keys, not by the order of the keys.  The order in which
    [json.dump] writes the keys to the file is not recorded. *)
#[local] Set Warnings "-register-all".
Inductive json :=
| JNull
| JStr (s : string)
| JObj (fields : gmap string json).

(** The state of the process: the global [DB] and the contents of
    [DATA_FILE] ([None] while the file does not exist).  [DB] too is a
    dictionary up to the order of its keys; the order in which a sweep visits
    the users is therefore not the one of the program, and what is proved
    about a sweep is proved user by user. *)
Record State := {
  DB : gmap string UserRecord;
  DATA_FILE : option json
}.

(** [rec.last_notified] read as a mapping: [None] holds no entry. *)
Definition notified_map (rec : UserRecord) : gmap string string :=
  default ∅ (last_notified rec).

Definition json_of_handle (h : option string) : json :=
  match h with
  | None => JNull
  | Some s => JStr s
  end.

(** [UserRecord.to_dict]: [asdict], then [None] replaced by [{}]. *)
Definition record_fields (rec : UserRecord) : gmap string json :=
  <["handle" := json_of_handle (handle rec)]>
    (<["timezone" := JStr (timezone rec)]>
       (<["last_notified" := JObj (JStr <$> notified_map rec)]> ∅)).

Definition to_dict (rec : UserRecord) : json := JObj (record_fields rec).

(** The document [save_db] dumps. *)
Definition dump_db (db : gmap string UserRecord) : json :=
  JObj (to_dict <$> db).

(** [save_db db]: the contents of the data file after the call. *)
Definition save_db (db : gmap string UserRecord) : option json :=
  Some (dump_db db).

Section Load.

Context (env : Env).

(** [UserRecord()] *)
Definition UserRecord_default : UserRecord :=
  {| handle := None; timezone := DEFAULT_TZ env; last_notified := None |}.

(** Reading a field of the typed record out of a JSON value; [None] is a
    value outside the type of the field. *)
Definition str_of_json (j : json) : option string :=
  match j with
  | JStr s => Some s
  | _ => None
  end.

Definition load_handle (v : gmap string json) : option (option string) :=
  match v !! "handle" with
  | None | Some JNull => Some None
  | Some (JStr s) => Some (Some s)
  | Some (JObj _) => None
  end.

Definition load_timezone (v : gmap string json) : option string :=
  match v !! "timezone" with
  | None => Some (DEFAULT_TZ env)
  | Some j => str_of_json j
  end.

(** A dictionary of strings, when every value is one. *)
Definition load_str_map (m : gmap string json) : option (gmap string string) :=
  if decide (map_Forall (λ _ j, is_Some (str_of_json j)) m)
  then Some (omap str_of_json m)
  else None.

Definition load_last_notified (v : gmap string json)
  : option (option (gmap string string)) :=
  match v !! "last_notified" with
  | None => Some (Some ∅)
  | Some JNull => Some None
  | Some (JObj m) => Some <$> load_str_map m
  | Some (JStr _) => None
  end.

(** One iteration of the loop of [load_db]: the record built from the
    value [v] of the document. *)
Definition load_record (v : json) : option UserRecord :=
  match v with
  | JObj f =>
      h ← load_handle f;
      tz ← load_timezone f;
      ln ← load_last_notified f;
      Some {| handle := h; timezone := tz; last_notified := ln |}
  | _ => None
  end.

(** [load_db]: the empty store when the file is missing; otherwise one
    record per key of the document.  The result is [None] when the document
    is not an object of records of the declared field types (Python then
    raises, or keeps values that are no strings). *)
Definition load_db (file : option json) : option (gmap string UserRecord) :=
  match file with
  | None => Some ∅
  | Some (JObj raw) =>
      if decide (map_Forall (λ _ v, is_Some (load_record v)) raw)
      then Some (omap load_record raw)
      else None
  | Some _ => None
  end.

End Load.

(** The record that [load_db] builds from what [to_dict] wrote: the same
    fields, with [None] for [last_notified] read back as [{}]. *)
Definition reloaded (rec : UserRecord) : UserRecord :=
  {| handle := handle rec;
     timezone := timezone rec;
     last_notified := Some (notified_map rec) |}.

(** ** Helpers *)

(** What an awaited call gives back: a value, or an exception. *)
Inductive outcome (A : Type) :=
| Returns (a : A)
| Raises.
Arguments Returns {A} a.
Arguments Raises {A}.

(** One entry of the [result] list of the feed. *)
Record Submission := {
  verdict : option string;
  creationTimeSeconds : option Z
}.

(** The answer to one [user.status] request: the request fails (network
    error, timeout, a body that is no JSON), or it yields a document with its
    [status] field and its [result] list (empty when the field is missing). *)
Inductive FeedResponse :=
| FeedFails
| FeedData (status : option string) (result : list Submission).

Section Helpers.

Context (env : Env).

(** The two lines
    [if user_tz_name not in all_timezones: user_tz_name = DEFAULT_TZ]. *)
Definition resolve_tz (user_tz_name : string) : string :=
  if decide (user_tz_name ∈ all_timezones env) then user_tz_name
  else DEFAULT_TZ env.

(** [datetime.now(tz_get(name)).date()] at the instant [now]. *)
Definition today_in (name : string) (now : Z) : date :=
  date_of_timestamp (utcoffset env name now) now.

(** [date.today()] at the instant [now]: the date of the host zone. *)
Definition date_today (now : Z) : date :=
  date_of_timestamp (host_utcoffset env now) now.

(** Python truth value of an [Optional[str]]. *)
Definition truthy (h : option string) : bool :=
  match h with
  | None => false
  | Some s => bool_decide (s ≠ EmptyString)
  end.

(** The two conversions of one timestamp,
    [datetime.fromtimestamp(ts, tz=timezone.utc)] and
    [dt_utc.astimezone(user_tz)]: the first raises when [ts] is outside the
    range of [datetime], the second when the local time is. *)
Definition convertible (user_tz : string) (ts : Z) : bool :=
  in_datetime_range ts && in_datetime_range (ts + utcoffset env user_tz ts).

(** The loop over [data.get("result", [])].  It ends with the first accepted
    submission dated today, and it raises at an accepted submission whose
    timestamp cannot be converted. *)
Fixpoint scan_submissions (user_tz : string) (today_local : date)
    (subs : list Submission) : outcome bool :=
  match subs with
  | [] => Returns false
  | sub :: rest =>
      if bool_decide (verdict sub = Some "OK") then
        match creationTimeSeconds sub with
        | None => scan_submissions user_tz today_local rest
        | Some ts =>
            if negb (convertible user_tz ts) then Raises
            else if bool_decide
                 (date_of_timestamp (utcoffset env user_tz ts) ts = today_local)
            then Returns true
            else scan_submissions user_tz today_local rest
        end
      else scan_submissions user_tz today_local rest
  end.

(** [cf_has_solved_today], given the feed as [fetch].  The first component
    lists the handles for which a request was issued. *)
Definition cf_has_solved_today (fetch : string → FeedResponse) (now : Z)
    (handle : option string) (user_tz_name : string)
  : list string * outcome bool :=
  match handle with
  | None => ([], Returns false)
  | Some h =>
      if negb (truthy handle) then ([], Returns false)
      else
        let user_tz := resolve_tz user_tz_name in
        let today_local := today_in user_tz now in
        ([h],
         match fetch h with
         | FeedFails => Raises
         | FeedData status result =>
             if bool_decide (status = Some "OK")
             then scan_submissions user_tz today_local result
             else Returns false
         end)
  end.

(** [mark_notified]: get or create the record, write today's date of the
    host ([date.today()]) under [slot], save. *)
Definition mark_record (rec : UserRecord) (slot : string) (now : Z)
  : UserRecord :=
  {| handle := handle rec;
     timezone := timezone rec;
     last_notified :=
       Some (<[slot := isoformat (date_today now)]> (notified_map rec)) |}.

Definition mark_notified (now : Z) (user_id slot : string) (st : State)
  : State :=
  let rec := default (UserRecord_default env) (DB st !! user_id) in
  let db := <[user_id := mark_record rec slot now]> (DB st) in
  {| DB := db; DATA_FILE := save_db db |}.

End Helpers.

Section Engine.

Context (env : Env).

(** [already_notified_today]: the record of a dataclass is always true as
    a condition, so [not rec] holds for a missing record only. *)
Definition already_notified_today (now : Z) (db : gmap string UserRecord)
    (user_id slot user_tz_name : string) : bool :=
  match db !! user_id with
  | None => false
  | Some rec =>
      match last_notified rec with
      | None => false
      | Some ln =>
          let user_tz := resolve_tz env user_tz_name in
          let today_local := isoformat (today_in env user_tz now) in
          bool_decide (ln !! slot = Some today_local)
      end
  end.

(** ** Telegram handlers

    A handler takes the sender's id and the arguments of the command, and
    returns the new state and the text of its reply. *)

Definition cmd_start (uid : string) (st : State) : State :=
  let db :=
    match DB st !! uid with
    | None => <[uid := UserRecord_default env]> (DB st)
    | Some _ => DB st
    end in
  {| DB := db; DATA_FILE := save_db db |}.

Definition cmd_sethandle (uid : string) (args : list string) (st : State)
  : State * string :=
  match args with
  | [] => (st, "Foydalanish: /sethandle <codeforces_handle>")
  | h :: _ =>
      let rec := default (UserRecord_default env) (DB st !! uid) in
      let db :=
        <[uid := {| handle := Some h;
                    timezone := timezone rec;
                    last_notified := last_notified rec |}]> (DB st) in
      ({| DB := db; DATA_FILE := save_db db |}, "✅ Handle saqlandi: " +:+ h)
  end.

Definition settz_usage : string :=
  "Foydalanish: /settz <IANA_timezone>, masalan: Europe/Amsterdam yoki Asia/Tashkent".

Definition settz_rejected : string :=
  "❌ Notog‘ri timezone. IANA ro‘yxatidan foydalaning.".

Definition cmd_settz (uid : string) (args : list string) (st : State)
  : State * string :=
  match args with
  | [] => (st, settz_usage)
  | tz_name :: _ =>
      if decide (tz_name ∈ all_timezones env) then
        let rec := default (UserRecord_default env) (DB st !! uid) in
        let db :=
          <[uid := {| handle := handle rec;
                      timezone := tz_name;
                      last_notified := last_notified rec |}]> (DB st) in
        ({| DB := db; DATA_FILE := save_db db |},
         "✅ Timezone saqlandi: " +:+ tz_name)
      else (st, settz_rejected)
  end.

(** ** Reminder logic *)

(** What one sweep observes of the outside world: the clock, the feed's
    answer to the request made for a user, and whether the message to a
    user is delivered ([false]: [int(uid)] or [send_message] raises). *)
Record World := {
  now : Z;
  feed : string → string → FeedResponse;
  deliver : string → string → bool
}.

(** The network events of a sweep, each with the id of the user in whose
    iteration it happens. *)
Inductive Event :=
| FeedRequest (uid handle : string)
| SendMessage (uid text : string) (delivered : bool).

Definition event_uid (e : Event) : string :=
  match e with
  | FeedRequest uid _ => uid
  | SendMessage uid _ _ => uid
  end.

Definition is_delivery (e : Event) : bool :=
  match e with
  | SendMessage _ _ true => true
  | _ => false
  end.

Definition reminder_text (slot handle : string) : string :=
  "⏰ Eslatma (" +:+ slot +:+ ")
Bugun hali Codeforces’da AC yo‘q. Keling, bitta yechamiz! 💪
Handle: " +:+ handle.

(** [try: ok_today = await ...  except Exception: ok_today = False] *)
Definition caught_as_false (answer : outcome bool) : bool :=
  match answer with
  | Returns b => b
  | Raises => false
  end.

(** The body of the loop of [send_reminders] for the key [uid].  The
    loop variable [rec] is the object stored in [DB] under [uid], which
    [mark_notified] updates in place; the body therefore reads the record
    from the current store. *)
Definition remind_user (w : World) (slot : string)
    (acc : State * list Event) (uid : string) : State * list Event :=
  let '(st, trace) := acc in
  match DB st !! uid with
  | None => acc
  | Some rec =>
      if negb (truthy (handle rec)) then acc
      else if already_notified_today (now w) (DB st) uid slot (timezone rec)
      then acc
      else
        let '(requests, answer) :=
          cf_has_solved_today env (feed w uid) (now w)
            (handle rec) (timezone rec) in
        let trace := trace ++ (FeedRequest uid <$> requests) in
        let ok_today := caught_as_false answer in
        if negb ok_today then
          let text := reminder_text slot (default EmptyString (handle rec)) in
          if deliver w uid text
          then (mark_notified env (now w) uid slot st,
                trace ++ [SendMessage uid text true])
          else (st, trace ++ [SendMessage uid text false])
        else (mark_notified env (now w) uid slot st, trace)
  end.

(** [send_reminders]: one pass over the keys of [DB]. *)
Definition send_reminders (w : World) (slot : string) (st : State)
  : State * list Event :=
  foldl (remind_user w slot) (st, []) (map_to_list (DB st)).*1.

(** The events of a trace that belong to user [u], and how many of them
    are delivered reminders. *)
Definition events_of (u : string) (trace : list Event) : list Event :=
  filter (λ e, event_uid e = u) trace.

Definition reminders_delivered (u : string) (trace : list Event) : nat :=
  length (filter (λ e, is_delivery e = true) (events_of u trace)).

End Engine.

(** [lastNotified[slot]] of the record of [u], when there is one. *)
Definition notified_entry (db : gmap string UserRecord) (u slot : string)
  : option string :=
  rec ← db !! u; notified_map rec !! slot.

(** The states that the process reaches from an empty store while only
    command handlers run: [mark_notified] has not been called. *)
Inductive never_marked (env : Env) : State → Prop :=
| never_marked_init :
    never_marked env {| DB := ∅; DATA_FILE := None |}
| never_marked_start uid st :
    never_marked env st → never_marked env (cmd_start env uid st)
| never_marked_sethandle uid args st :
    never_marked env st → never_marked env (cmd_sethandle env uid args st).1
| never_marked_settz uid args st :
    never_marked env st → never_marked env (cmd_settz env uid args st).1.

(** A submission counts for [today_local] in zone [user_tz] when it is
    accepted and its instant, moved into the zone, falls on that date. *)
Definition counts_today (env : Env) (user_tz : string) (today_local : date)
    (sub : Submission) : Prop :=
  verdict sub = Some "OK" ∧
  ∃ ts, creationTimeSeconds sub = Some ts ∧
        date_of_timestamp (utcoffset env user_tz ts) ts = today_local.

(** The accepted submissions of a result list all carry a timestamp that
    can be converted in zone [user_tz], so that the scan does not raise. *)
Definition all_convertible (env : Env) (user_tz : string)
    (subs : list Submission) : Prop :=
  ∀ sub ts, sub ∈ subs → verdict sub = Some "OK" →
            creationTimeSeconds sub = Some ts →
            convertible env user_tz ts = true.

Definition is_feed_request (e : Event) : bool :=
  match e with
  | FeedRequest _ _ => true
  | SendMessage _ _ _ => false
  end.

Definition is_send_attempt (e : Event) : bool :=
  match e with
  | FeedRequest _ _ => false
  | SendMessage _ _ _ => true
  end.

(** Every element of a listed result in turn. *)
Ltac convertible_list :=
  let sub := fresh "sub" in
  let ts := fresh "ts" in
  let Hin := fresh "Hin" in
  let Hts := fresh "Hts" in
  intros sub ts Hin _ Hts;
  repeat (apply elem_of_cons in Hin as [-> | Hin];
          [simpl in Hts; try discriminate Hts;
           injection Hts as <-; vm_compute; reflexivity|]);
  by apply elem_of_nil in Hin.

(** ** Concrete deployments

    Three zones without daylight saving time, with their offsets in seconds.
    The bot's default zone is Asia/Tashkent in both deployments; the host
    process runs on Pacific standard time in the first and on Tashkent time in
    the second. *)

Definition zone_table : list (string * Z) :=
  [("Asia/Tashkent", 18000); ("Asia/Tokyo", 32400); ("UTC", 0)].

Definition zone_offset (name : string) : Z :=
  default 0 ((list_to_map zone_table : gmap string Z) !! name).

Definition env_pacific_host : Env :=
  {| all_timezones := zone_table.*1;
     DEFAULT_TZ := "Asia/Tashkent";
     utcoffset := λ name _, zone_offset name;
     host_utcoffset := λ _, -28800 |}.

Definition env_tashkent_host : Env :=
  {| all_timezones := zone_table.*1;
     DEFAULT_TZ := "Asia/Tashkent";
     utcoffset := λ name _, zone_offset name;
     host_utcoffset := λ _, 18000 |}.

(** 2024-01-15 at 08:00:00, 12:00:00 and 22:00:00 in Tashkent (03:00, 07:00
    and 17:00 UTC).  The first is 19:00 of 2024-01-14 on the Pacific host; the
    last is 02:00 of 2024-01-16 in Tokyo. *)
Definition slot_0800 : Z := 1705287600.
Definition slot_1200 : Z := 1705302000.
Definition slot_2200 : Z := 1705338000.

(** One user with a handle, in the default zone, never notified. *)
Definition db_tourist : gmap string UserRecord :=
  {[ "42" := {| handle := Some "tourist";
                timezone := "Asia/Tashkent";
                last_notified := None |} ]}.

Definition st_tourist : State :=
  {| DB := db_tourist; DATA_FILE := save_db db_tourist |}.

(** The same user after /settz Asia/Tokyo. *)
Definition st_tokyo : State :=
  (cmd_settz env_tashkent_host "42" ["Asia/Tokyo"] st_tourist).1.

(** A feed without accepted submissions, and a feed with one submission
    accepted at 07:55 Tashkent time of 2024-01-15. *)
Definition feed_nothing : string → string → FeedResponse :=
  λ _ _, FeedData (Some "OK") [].

Definition feed_accepted_0755 : string → string → FeedResponse :=
  λ _ _, FeedData (Some "OK")
           [{| verdict := Some "OK"; creationTimeSeconds := Some 1705287300 |}].

Definition feed_unavailable : string → string → FeedResponse :=
  λ _ _, FeedFails.

(** An answer that reports the status FAILED and still carries the
    submission accepted at 07:55. *)
Definition fetch_failed_with_result : string → FeedResponse :=
  λ _, FeedData (Some "FAILED")
         [{| verdict := Some "OK"; creationTimeSeconds := Some 1705287300 |}].

(** One submission accepted at 01:00 Tashkent time of 2024-01-15, which is
    20:00 UTC of 2024-01-14, after a rejected one. *)
Definition fetch_accepted_after_midnight : string → FeedResponse :=
  λ _, FeedData (Some "OK")
         [{| verdict := Some "WRONG_ANSWER";
             creationTimeSeconds := Some 1705266000 |};
          {| verdict := Some "OK"; creationTimeSeconds := Some 1705262400 |}].

(** A submission accepted in the year 10000 and more, listed before the one
    accepted at 07:55, and the same two the other way round. *)
Definition subs_overflow_first : list Submission :=
  [{| verdict := Some "OK"; creationTimeSeconds := Some 253402300800 |};
   {| verdict := Some "OK"; creationTimeSeconds := Some 1705287300 |}].

Definition subs_overflow_last : list Submission := reverse subs_overflow_first.

(** The same store with a second user who has only sent /start. *)
Definition st_two_users : State :=
  cmd_start env_tashkent_host "7" st_tourist.

Definition world_unsolved (t : Z) : World :=
  {| now := t; feed := feed_nothing; deliver := λ _ _, true |}.

Definition world_solved (t : Z) : World :=
  {| now := t; feed := feed_accepted_0755; deliver := λ _ _, true |}.

Definition world_feed_down (t : Z) : World :=
  {| now := t; feed := feed_unavailable; deliver := λ _ _, true |}.

Definition world_delivery_fails (t : Z) : World :=
  {| now := t; feed := feed_nothing; deliver := λ _ _, false |}.

(** ** The remaining handlers and helpers *)

(** [hhmm.split(":")] *)
Fixpoint split_colon (s : string) : list string :=
  match s with
  | EmptyString => [EmptyString]
  | String a rest =>
      if decide (a = ":"%char) then EmptyString :: split_colon rest
      else match split_colon rest with
           | part :: parts => String a part :: parts
           | [] => [String a EmptyString]
           end
  end.

Definition digit_value (a : ascii) : option Z :=
  let n := Z.of_nat (nat_of_ascii a) in
  if (48 <=? n) && (n <=? 57) then Some (n - 48) else None.

Fixpoint decimal_value (acc : Z) (s : string) : option Z :=
  match s with
  | EmptyString => Some acc
  | String a rest => d ← digit_value a; decimal_value (10 * acc + d) rest
  end.

(** [int(s)] on the plain decimal numerals, the non-empty strings of the
    digits 0 to 9.  [None] stands for every other string: [int] raises
    [ValueError] on most of them, and the signs, blanks, underscores and
    further digits it accepts are outside this fragment. *)
Definition py_int (s : string) : option Z :=
  match s with
  | EmptyString => None
  | _ => decimal_value 0 s
  end.

(** [parse_time]: unpacking into [h, m] needs exactly two parts. *)
Definition parse_time (hhmm : string) : option (Z * Z) :=
  match split_colon hhmm with
  | [h; m] => hh ← py_int h; mm ← py_int m; Some (hh, mm)
  | _ => None
  end.

Definition streak_need_handle : string :=
  "Avval /sethandle buyruğini yuboring.".

Definition streak_solved : string := "🎉 Bugun allaqachon AC bor! Ajoyib!".

Definition streak_unsolved : string :=
  "⏰ Hali AC yo‘q. Omad! (Eslatmalar ishlaydi)".

(** [cmd_streak]: the handles requested from the feed and the reply; the
    handler raises when the feed does.  It does not touch the state. *)
Definition cmd_streak (env : Env) (fetch : string → FeedResponse) (now : Z)
    (uid : string) (st : State) : list string * outcome string :=
  match DB st !! uid with
  | None => ([], Returns streak_need_handle)
  | Some rec =>
      if negb (truthy (handle rec)) then ([], Returns streak_need_handle)
      else
        let '(requests, answer) :=
          cf_has_solved_today env fetch now (handle rec) (timezone rec) in
        (requests,
         match answer with
         | Returns true => Returns streak_solved
         | Returns false => Returns streak_unsolved
         | Raises => Raises
         end)
  end.

(** [', '.join(REMINDER_TIMES)] *)
Fixpoint join_comma (parts : list string) : string :=
  match parts with
  | [] => EmptyString
  | [p] => p
  | p :: rest => p +:+ ", " +:+ join_comma rest
  end.

(** [cmd_whoami]: the reply, built from [DB.get(uid, UserRecord())]. *)
Definition cmd_whoami (env : Env) (uid : string) (st : State) : string :=
  let rec := default (UserRecord_default env) (DB st !! uid) in
  "👤 Siz:
• Handle: <b>"
  +:+ (if truthy (handle rec) then default EmptyString (handle rec) else "yo‘q")
  +:+ "</b>
• Timezone: <b>" +:+ timezone rec +:+ "</b>
• Reminderlar: " +:+ join_comma REMINDER_TIMES.

(** The states that the process reaches from an empty store and no data
    file, through the handlers that change the state and through sweeps. *)
Inductive reachable (env : Env) : State → Prop :=
| reachable_init :
    reachable env {| DB := ∅; DATA_FILE := None |}
| reachable_start uid st :
    reachable env st → reachable env (cmd_start env uid st)
| reachable_sethandle uid args st :
    reachable env st → reachable env (cmd_sethandle env uid args st).1
| reachable_settz uid args st :
    reachable env st → reachable env (cmd_settz env uid args st).1
| reachable_sweep w slot st :
    reachable env st → reachable env (send_reminders env w slot st).1.

(** A fresh install, user 42 after /start and /sethandle tourist, and the
    state after a first 08:00 sweep in which the reminder is delivered. *)
Definition st_fresh : State := {| DB := ∅; DATA_FILE := None |}.

Definition st_registered : State :=
  (cmd_sethandle env_tashkent_host "42" ["tourist"]
     (cmd_start env_tashkent_host "42" st_fresh)).1.

Definition st_reminded : State :=
  (send_reminders env_tashkent_host (world_unsolved slot_0800)
     "08:00" st_registered).1.


(** Two submissions accepted today and one rejected, in two orders. *)
Definition subs_newest_first : list Submission :=
  [{| verdict := Some "WRONG_ANSWER"; creationTimeSeconds := Some 1705287500 |};
   {| verdict := Some "OK"; creationTimeSeconds := Some 1705287300 |};
   {| verdict := Some "OK"; creationTimeSeconds := None |}].

Definition subs_oldest_first : list Submission := reverse subs_newest_first.

(** * Properties *)

Example isoformat_epoch : isoformat 0 = "1970-01-01".
Proof. reflexivity. Qed.

Example isoformat_leap_day : isoformat 19782 = "2024-02-29".
Proof. reflexivity. Qed.

Example isoformat_new_year_eve : isoformat 19722 = "2023-12-31".
Proof. reflexivity. Qed.


(** ** The store after [mark_notified] *)

Section MarkFacts.

Context (env : Env).

Lemma mark_notified_lookup now u slot st :
  DB (mark_notified env now u slot st) !! u =
  Some (mark_record env (default (UserRecord_default env) (DB st !! u)) slot now).
Proof. unfold mark_notified; simpl. by rewrite lookup_insert_eq. Qed.

Lemma mark_notified_lookup_ne now u u' slot st :
  u' ≠ u → DB (mark_notified env now u slot st) !! u' = DB st !! u'.
Proof. intros Hne. unfold mark_notified; simpl. by rewrite lookup_insert_ne. Qed.

Lemma mark_notified_entry now u slot st :
  notified_entry (DB (mark_notified env now u slot st)) u slot =
  Some (isoformat (date_today env now)).
Proof.
  unfold notified_entry. rewrite mark_notified_lookup. simpl.
  unfold notified_map at 1; simpl. by rewrite lookup_insert_eq.
Qed.

Lemma mark_notified_entry_ne now u slot slot' st :
  slot' ≠ slot →
  notified_entry (DB (mark_notified env now u slot st)) u slot' =
  notified_entry (DB st) u slot'.
Proof.
  intros Hne. unfold notified_entry. rewrite mark_notified_lookup. simpl.
  unfold notified_map at 1; simpl. rewrite lookup_insert_ne by done.
  destruct (DB st !! u) as [rec|]; simpl; [done|].
  unfold notified_map; simpl. by rewrite lookup_empty.
Qed.

Lemma mark_notified_file now u slot st :
  DATA_FILE (mark_notified env now u slot st) =
  save_db (DB (mark_notified env now u slot st)).
Proof. done. Qed.

End MarkFacts.

(** ** One iteration of the sweep, and the sweep seen from one user *)

Section SweepFacts.

Context (env : Env) (w : World) (slot : string).

Lemma events_of_app u (t1 t2 : list Event) :
  events_of u (t1 ++ t2) = events_of u t1 ++ events_of u t2.
Proof. unfold events_of. apply filter_app. Qed.

Lemma events_of_feed_requests u uid (hs : list string) :
  u ≠ uid → events_of u (FeedRequest uid <$> hs) = [].
Proof.
  intros Hne. unfold events_of. induction hs as [|h hs IH]; [done|].
  simpl. rewrite filter_cons_False; [done | simpl; congruence].
Qed.

Lemma events_of_send_ne u uid text d :
  u ≠ uid → events_of u [SendMessage uid text d] = [].
Proof.
  intros Hne. unfold events_of.
  rewrite filter_cons_False; [done | simpl; congruence].
Qed.

Lemma already_notified_today_local now (db1 db2 : gmap string UserRecord) u tz :
  db1 !! u = db2 !! u →
  already_notified_today env now db1 u slot tz =
  already_notified_today env now db2 u slot tz.
Proof. intros Heq. unfold already_notified_today. by rewrite Heq. Qed.

(** An iteration for [uid] leaves every other user's record and events
    as they were. *)
Lemma remind_user_other acc uid u :
  u ≠ uid →
  DB (remind_user env w slot acc uid).1 !! u = DB acc.1 !! u ∧
  events_of u (remind_user env w slot acc uid).2 = events_of u acc.2.
Proof.
  intros Hne. destruct acc as [st trace]. unfold remind_user.
  destruct (DB st !! uid) as [rec|]; [|done].
  destruct (negb (truthy (handle rec))); [done|].
  destruct (already_notified_today _ _ _ _ _ _); [done|].
  destruct (cf_has_solved_today _ _ _ _ _) as [requests answer].
  destruct (negb _); [destruct (deliver w uid _)|]; cbn [fst snd];
    rewrite ?mark_notified_lookup_ne by done;
    rewrite ?events_of_app, ?events_of_feed_requests, ?events_of_send_ne by done;
    by rewrite ?app_nil_r.
Qed.

(** What an iteration does to its own user depends on that user's record
    and earlier events only. *)
Lemma remind_user_local st1 st2 (t1 t2 : list Event) u :
  DB st1 !! u = DB st2 !! u →
  events_of u t1 = events_of u t2 →
  DB (remind_user env w slot (st1, t1) u).1 !! u =
    DB (remind_user env w slot (st2, t2) u).1 !! u ∧
  events_of u (remind_user env w slot (st1, t1) u).2 =
    events_of u (remind_user env w slot (st2, t2) u).2.
Proof.
  intros Hdb Htr. unfold remind_user. cbv beta iota.
  rewrite <- Hdb.
  destruct (DB st1 !! u) as [rec|] eqn:Hrec; cbn [fst snd];
    [|by rewrite <- Hdb, Hrec].
  destruct (negb (truthy (handle rec))); cbn [fst snd];
    [by rewrite <- Hdb, Hrec|].
  rewrite (already_notified_today_local _ (DB st1) (DB st2)) by congruence.
  destruct (already_notified_today _ _ _ _ _ _); cbn [fst snd];
    [by rewrite <- Hdb, Hrec|].
  destruct (cf_has_solved_today _ _ _ _ _) as [requests answer].
  destruct (negb _); [destruct (deliver w u _)|]; cbn [fst snd];
    rewrite ?mark_notified_lookup, ?events_of_app, <- ?Hdb, ?Hrec, ?Htr;
    done.
Qed.

Lemma sweep_skips acc (us : list string) u :
  u ∉ us →
  DB (foldl (remind_user env w slot) acc us).1 !! u = DB acc.1 !! u ∧
  events_of u (foldl (remind_user env w slot) acc us).2 = events_of u acc.2.
Proof.
  revert acc. induction us as [|a us IH]; intros acc Hnotin; [done|].
  apply not_elem_of_cons in Hnotin as [Hne Hnotin]. simpl.
  destruct (IH (remind_user env w slot acc a) Hnotin) as [-> ->].
  by apply remind_user_other.
Qed.

Lemma sweep_visits_once acc (us : list string) u :
  NoDup us → u ∈ us →
  DB (foldl (remind_user env w slot) acc us).1 !! u =
    DB (remind_user env w slot acc u).1 !! u ∧
  events_of u (foldl (remind_user env w slot) acc us).2 =
    events_of u (remind_user env w slot acc u).2.
Proof.
  revert acc. induction us as [|a us IH]; intros acc Hnd Hin.
  { by apply elem_of_nil in Hin. }
  apply NoDup_cons in Hnd as [Ha Hnd]. simpl.
  destruct (decide (u = a)) as [->|Hne].
  - by apply sweep_skips.
  - apply elem_of_cons in Hin as [?|Hin]; [done|].
    destruct (IH (remind_user env w slot acc a) Hnd Hin) as [-> ->].
    destruct (remind_user_other acc a u Hne) as [Hdb Htr].
    destruct (remind_user env w slot acc a) as [st' t'].
    destruct acc as [st t]. by apply remind_user_local.
Qed.

(** The sweep, seen from user [u], is the single iteration for [u] run on
    the state before the sweep. *)
Lemma send_reminders_at_user st u :
  DB (send_reminders env w slot st).1 !! u =
    DB (remind_user env w slot (st, []) u).1 !! u ∧
  events_of u (send_reminders env w slot st).2 =
    events_of u (remind_user env w slot (st, []) u).2.
Proof.
  unfold send_reminders.
  destruct (DB st !! u) as [rec|] eqn:Hrec.
  - apply sweep_visits_once; [apply NoDup_fst_map_to_list|].
    apply list_elem_of_fmap. exists (u, rec). split; [done|].
    by apply elem_of_map_to_list.
  - assert (u ∉ (map_to_list (DB st)).*1) as Hnotin.
    { intros Hin. apply list_elem_of_fmap in Hin as [[k v] [-> Hin]].
      apply elem_of_map_to_list in Hin. simpl in Hrec. congruence. }
    destruct (sweep_skips (st, []) _ u Hnotin) as [-> ->].
    unfold remind_user. by rewrite Hrec.
Qed.

End SweepFacts.

(** ** Persistence: saving, then loading *)

Section RoundTrip.

Context (env : Env).

Lemma load_str_map_dump (m : gmap string string) :
  load_str_map (JStr <$> m) = Some m.
Proof.
  unfold load_str_map. rewrite decide_True.
  - f_equal. apply map_eq. intros k.
    rewrite lookup_omap, lookup_fmap. by destruct (m !! k).
  - intros k j. rewrite lookup_fmap.
    destruct (m !! k); simpl; intros [= <-]; by eexists.
Qed.

Lemma load_handle_fields rec :
  load_handle (record_fields rec) = Some (handle rec).
Proof.
  unfold load_handle, record_fields. rewrite lookup_insert_eq.
  by destruct (handle rec).
Qed.

Lemma load_timezone_fields rec :
  load_timezone env (record_fields rec) = Some (timezone rec).
Proof.
  unfold load_timezone, record_fields.
  by rewrite lookup_insert_ne, lookup_insert_eq.
Qed.

Lemma load_last_notified_fields rec :
  load_last_notified (record_fields rec) = Some (Some (notified_map rec)).
Proof.
  unfold load_last_notified, record_fields.
  rewrite !lookup_insert_ne, lookup_insert_eq by done.
  by rewrite load_str_map_dump.
Qed.

Lemma load_record_to_dict rec :
  load_record env (to_dict rec) = Some (reloaded rec).
Proof.
  unfold load_record, to_dict.
  rewrite load_handle_fields; cbn [mbind option_bind].
  rewrite load_timezone_fields; cbn [mbind option_bind].
  by rewrite load_last_notified_fields.
Qed.

Lemma load_db_save_db (db : gmap string UserRecord) :
  load_db env (save_db db) = Some (reloaded <$> db).
Proof.
  unfold load_db, save_db, dump_db. rewrite decide_True.
  - f_equal. apply map_eq. intros k.
    rewrite lookup_omap, !lookup_fmap.
    destruct (db !! k) as [rec|]; simpl; [|done].
    apply load_record_to_dict.
  - intros k v. rewrite lookup_fmap.
    destruct (db !! k) as [rec|]; simpl; intros [= <-].
    rewrite load_record_to_dict. by eexists.
Qed.

(** C8.  Saving the store and loading the file again gives a store with
    the same users, and for every user the same handle, the same timezone
    and the same [last_notified] mapping (a record whose [last_notified] is
    still [None] holds no entry, and is read back with the empty
    dictionary). *)
Theorem save_then_load_preserves_records (db : gmap string UserRecord) :
  ∃ db' : gmap string UserRecord,
    load_db env (save_db db) = Some db' ∧
    ∀ uid : string,
      handle <$> db' !! uid = handle <$> db !! uid ∧
      timezone <$> db' !! uid = timezone <$> db !! uid ∧
      notified_map <$> db' !! uid = notified_map <$> db !! uid ∧
      last_notified <$> db' !! uid = Some ∘ notified_map <$> db !! uid.
Proof.
  exists (reloaded <$> db). split; [apply load_db_save_db|].
  intros uid. rewrite lookup_fmap. by destruct (db !! uid).
Qed.

End RoundTrip.

(** ** [mark_notified] and [already_notified_today] *)

Section Dedup.

Context (env : Env).

(** C10.  [mark_notified] touches one entry of one record: the user's
    handle and timezone stay as they were (those of a fresh [UserRecord()]
    when the user had no record yet), every other slot of the user keeps
    its entry, and every other user keeps their record. *)
Theorem mark_notified_frame now u slot st u' slot' :
  u' ≠ u → slot' ≠ slot →
  let st' := mark_notified env now u slot st in
  let old := default (UserRecord_default env) (DB st !! u) in
  handle <$> DB st' !! u = Some (handle old) ∧
  timezone <$> DB st' !! u = Some (timezone old) ∧
  notified_entry (DB st') u slot' = notified_entry (DB st) u slot' ∧
  DB st' !! u' = DB st !! u'.
Proof.
  intros Hu Hslot st' old. subst st' old.
  rewrite mark_notified_lookup, mark_notified_lookup_ne by done.
  by rewrite mark_notified_entry_ne.
Qed.

(** [mark_notified] writes the date of the host process ([date.today()])
    under the slot; that is the date of the default zone whenever the two
    zones agree on the date at that instant. *)
Theorem mark_notified_sets_host_date now u slot st :
  let st' := mark_notified env now u slot st in
  notified_entry (DB st') u slot = Some (isoformat (date_today env now)) ∧
  (date_today env now = today_in env (DEFAULT_TZ env) now →
   notified_entry (DB st') u slot =
   Some (isoformat (today_in env (DEFAULT_TZ env) now))).
Proof.
  intros st'. subst st'. rewrite mark_notified_entry.
  split; [done|]. by intros ->.
Qed.

(** Without an entry for the slot the check answers no: this covers a
    missing record, a record whose [last_notified] is [None], and a
    dictionary without the key. *)
Lemma already_notified_today_unmarked now (db : gmap string UserRecord) u slot tz :
  notified_entry db u slot = None →
  already_notified_today env now db u slot tz = false.
Proof.
  unfold notified_entry, already_notified_today, notified_map.
  destruct (db !! u) as [rec|]; simpl; [|done].
  destruct (last_notified rec) as [ln|]; simpl; [|done].
  intros ->. by rewrite bool_decide_eq_false.
Qed.

(** Before any call of [mark_notified] no record holds a date, and the
    check answers no. *)
Lemma never_marked_no_entry st u slot :
  never_marked env st → notified_entry (DB st) u slot = None.
Proof.
  intros Hst. unfold notified_entry, notified_map.
  assert (∀ rec, DB st !! u = Some rec → last_notified rec = None) as Hnone.
  { induction Hst as [|uid st _ IH|uid args st _ IH|uid args st _ IH]; intros rec.
    - simpl. by rewrite lookup_empty.
    - unfold cmd_start; simpl. destruct (DB st !! uid) eqn:Huid; [apply IH|].
      destruct (decide (uid = u)) as [->|Hne].
      + rewrite lookup_insert_eq. by intros [= <-].
      + rewrite lookup_insert_ne by done. apply IH.
    - unfold cmd_sethandle. destruct args as [|h args]; simpl; [apply IH|].
      destruct (decide (uid = u)) as [->|Hne].
      + rewrite lookup_insert_eq. intros [= <-]; simpl.
        destruct (DB st !! u) as [old|] eqn:Hold; simpl; [by apply IH|done].
      + rewrite lookup_insert_ne by done. apply IH.
    - unfold cmd_settz. destruct args as [|tz args]; simpl; [apply IH|].
      case_decide; simpl; [|apply IH].
      destruct (decide (uid = u)) as [->|Hne].
      + rewrite lookup_insert_eq. intros [= <-]; simpl.
        destruct (DB st !! u) as [old|] eqn:Hold; simpl; [by apply IH|done].
      + rewrite lookup_insert_ne by done. apply IH. }
  destruct (DB st !! u) as [rec|]; simpl; [|done].
  by rewrite (Hnone rec).
Qed.

Lemma already_notified_today_never_marked now st u slot tz :
  never_marked env st →
  already_notified_today env now (DB st) u slot tz = false.
Proof.
  intros Hst. apply already_notified_today_unmarked.
  by apply never_marked_no_entry.
Qed.

(** The check compares the stored string with today's date in the resolved
    zone of the user. *)
Lemma already_notified_today_entry now (db : gmap string UserRecord) u slot tz :
  already_notified_today env now db u slot tz =
  bool_decide (notified_entry db u slot =
               Some (isoformat (today_in env (resolve_tz env tz) now))).
Proof.
  unfold notified_entry, already_notified_today, notified_map.
  destruct (db !! u) as [rec|]; simpl; [|done].
  destruct (last_notified rec) as [ln|]; simpl; [done|].
  by rewrite lookup_empty.
Qed.

(** When the host and the user's resolved zone agree on today's date, the
    check right after the mark answers yes. *)
Lemma already_notified_after_mark now u slot tz st :
  date_today env now = today_in env (resolve_tz env tz) now →
  already_notified_today env now
    (DB (mark_notified env now u slot st)) u slot tz = true.
Proof.
  intros Hsame. rewrite already_notified_today_entry, mark_notified_entry.
  rewrite Hsame. by apply bool_decide_eq_true.
Qed.

(** C7.  [cmd_settz] with a name outside [all_timezones] answers with the
    rejection text and leaves the store and the data file as they were. *)
Theorem cmd_settz_rejects_unknown_zone uid tz_name (rest : list string) st :
  tz_name ∉ all_timezones env →
  cmd_settz env uid (tz_name :: rest) st = (st, settz_rejected).
Proof. intros Hbad. unfold cmd_settz. by rewrite decide_False. Qed.

End Dedup.

(** ** The submission feed *)

Section Feed.

Context (env : Env).

Lemma counts_today_cons user_tz today_local sub (rest : list Submission) :
  (∃ s, s ∈ sub :: rest ∧ counts_today env user_tz today_local s) ↔
  counts_today env user_tz today_local sub ∨
  ∃ s, s ∈ rest ∧ counts_today env user_tz today_local s.
Proof.
  split.
  - intros (s & Hin & Hs). apply elem_of_cons in Hin as [->|Hin]; eauto.
  - intros [Hs|(s & Hin & Hs)]; [exists sub|exists s];
      (split; [|done]); [apply list_elem_of_here|by apply list_elem_of_further].
Qed.

(** A scan that answers yes has met a submission that counts, whatever
    else the list holds. *)
Lemma scan_submissions_true_sound user_tz today_local (subs : list Submission) :
  scan_submissions env user_tz today_local subs = Returns true →
  ∃ sub, sub ∈ subs ∧ counts_today env user_tz today_local sub.
Proof.
  induction subs as [|sub rest IH]; simpl; [done|].
  rewrite counts_today_cons. unfold counts_today at 1.
  case_bool_decide as Hv; [|by right; apply IH].
  destruct (creationTimeSeconds sub) as [ts|]; [|by right; apply IH].
  destruct (negb _); [done|].
  case_bool_decide as Hd; [|by right; apply IH].
  intros _. left. eauto.
Qed.

Lemma all_convertible_cons user_tz sub (rest : list Submission) :
  all_convertible env user_tz (sub :: rest) → all_convertible env user_tz rest.
Proof.
  intros Hall s ts Hin. apply Hall. by apply list_elem_of_further.
Qed.

(** When every accepted timestamp can be converted the scan answers, and it
    answers yes exactly when some submission counts. *)
Lemma scan_submissions_convertible user_tz today_local (subs : list Submission) :
  all_convertible env user_tz subs →
  ∃ b : bool,
    scan_submissions env user_tz today_local subs = Returns b ∧
    (b = true ↔ ∃ sub, sub ∈ subs ∧ counts_today env user_tz today_local sub).
Proof.
  induction subs as [|sub rest IH]; intros Hall; simpl.
  { exists false. split; [done|]. split; [done|].
    intros (sub & Hin & _). by apply elem_of_nil in Hin. }
  destruct (IH (all_convertible_cons _ _ _ Hall)) as (b & Hscan & Hb).
  assert (¬ counts_today env user_tz today_local sub →
          ∃ b' : bool, scan_submissions env user_tz today_local rest = Returns b' ∧
            (b' = true ↔
             ∃ s, s ∈ sub :: rest ∧ counts_today env user_tz today_local s))
    as Hrest.
  { intros Hnot. exists b. split; [done|]. rewrite counts_today_cons, Hb.
    split; [by right|]. by intros [?|?]. }
  case_bool_decide as Hv.
  2: { apply Hrest. unfold counts_today. by intros [? _]. }
  destruct (creationTimeSeconds sub) as [ts|] eqn:Hts.
  2: { apply Hrest. unfold counts_today. rewrite Hts.
       by intros (_ & ts & ? & _). }
  rewrite (Hall sub ts) by (done || apply list_elem_of_here). simpl.
  case_bool_decide as Hd.
  - exists true. split; [done|]. split; [|done]. intros _.
    exists sub. split; [apply list_elem_of_here|]. split; [done|]. eauto.
  - apply Hrest. unfold counts_today. rewrite Hts.
    intros (_ & ts' & [= <-] & ?). done.
Qed.

(** A missing or empty handle: the answer is no, and no request is
    issued. *)
Lemma cf_has_solved_today_no_handle fetch now h tz :
  truthy h = false →
  cf_has_solved_today env fetch now h tz = ([], Returns false).
Proof.
  intros Hh. unfold cf_has_solved_today.
  destruct h as [s|]; [|done]. by rewrite Hh.
Qed.

(** A feed that reports another status than OK: the answer is no. *)
Lemma cf_has_solved_today_bad_status fetch now h tz status result :
  fetch h = FeedData status result → status ≠ Some "OK" →
  (cf_has_solved_today env fetch now (Some h) tz).2 = Returns false.
Proof.
  intros Hfetch Hstatus. unfold cf_has_solved_today.
  destruct (negb _); [done|]. simpl. rewrite Hfetch.
  by rewrite bool_decide_eq_false_2.
Qed.

(** Whenever the check answers yes, a submission of the result list
    counts. *)
Lemma cf_has_solved_today_true_sound fetch now h tz status result :
  fetch h = FeedData status result →
  (cf_has_solved_today env fetch now (Some h) tz).2 = Returns true →
  ∃ sub, sub ∈ result ∧
         counts_today env (resolve_tz env tz)
           (today_in env (resolve_tz env tz) now) sub.
Proof.
  intros Hfetch. unfold cf_has_solved_today.
  destruct (negb _); [done|]. simpl. rewrite Hfetch.
  case_bool_decide; [|done]. apply scan_submissions_true_sound.
Qed.

(** C4, as the code has it.  For a non-empty handle and a feed that
    reports status OK and whose accepted submissions all carry a timestamp
    that [datetime] can hold, in UTC and in the user's resolved zone,
    [cf_has_solved_today] issues one request and answers; it answers yes
    exactly when some submission of the result list is accepted and its
    instant, moved into the user's resolved zone, falls on today's date in
    that zone. *)
Theorem cf_has_solved_today_iff fetch now h tz result :
  h ≠ EmptyString →
  fetch h = FeedData (Some "OK") result →
  all_convertible env (resolve_tz env tz) result →
  ∃ b : bool,
    cf_has_solved_today env fetch now (Some h) tz = ([h], Returns b) ∧
    (b = true ↔
     ∃ sub, sub ∈ result ∧
            counts_today env (resolve_tz env tz)
              (today_in env (resolve_tz env tz) now) sub).
Proof.
  intros Hh Hfetch Hall.
  destruct (scan_submissions_convertible (resolve_tz env tz)
              (today_in env (resolve_tz env tz) now) result Hall)
    as (b & Hscan & Hb).
  exists b. split; [|done].
  unfold cf_has_solved_today, truthy.
  rewrite bool_decide_eq_true_2 by done. simpl.
  by rewrite Hfetch, bool_decide_eq_true_2, Hscan.
Qed.

End Feed.

(** ** The sweep *)

Section Sweep.

Context (env : Env).

Lemma already_notified_today_same_day now1 now2
    (db1 db2 : gmap string UserRecord) u slot tz :
  db1 !! u = db2 !! u →
  today_in env (resolve_tz env tz) now1 = today_in env (resolve_tz env tz) now2 →
  already_notified_today env now1 db1 u slot tz =
  already_notified_today env now2 db2 u slot tz.
Proof.
  intros Hdb Hday. rewrite !already_notified_today_entry.
  unfold notified_entry. by rewrite Hdb, Hday.
Qed.

(** The iteration for a user who is skipped. *)
Lemma remind_user_skipped w slot st trace u rec :
  DB st !! u = Some rec →
  truthy (handle rec) = false ∨
  already_notified_today env (now w) (DB st) u slot (timezone rec) = true →
  remind_user env w slot (st, trace) u = (st, trace).
Proof.
  intros Hrec Hskip. unfold remind_user. rewrite Hrec.
  destruct (truthy (handle rec)); simpl; [|done].
  destruct Hskip as [? | ->]; done.
Qed.

(** The iteration for a user who is checked: the record has a handle and
    the slot is not marked for today. *)
Lemma remind_user_checked w slot st trace u rec :
  DB st !! u = Some rec →
  truthy (handle rec) = true →
  already_notified_today env (now w) (DB st) u slot (timezone rec) = false →
  let check :=
    cf_has_solved_today env (feed w u) (now w) (handle rec) (timezone rec) in
  let text := reminder_text slot (default EmptyString (handle rec)) in
  let trace' := trace ++ (FeedRequest u <$> check.1) in
  remind_user env w slot (st, trace) u =
  if caught_as_false check.2
  then (mark_notified env (now w) u slot st, trace')
  else if deliver w u text
       then (mark_notified env (now w) u slot st,
             trace' ++ [SendMessage u text true])
       else (st, trace' ++ [SendMessage u text false]).
Proof.
  intros Hrec Hh Hnot check text trace'. subst check text trace'.
  unfold remind_user. rewrite Hrec, Hh, Hnot. simpl.
  by destruct (cf_has_solved_today _ _ _ _ _) as [requests [[|]|]].
Qed.

Lemma reminders_delivered_feed_requests u uid (hs : list string) :
  reminders_delivered u (FeedRequest uid <$> hs) = 0%nat.
Proof.
  unfold reminders_delivered, events_of.
  induction hs as [|h hs IH]; [done|]. simpl.
  destruct (decide (uid = u)) as [->|Hne].
  - rewrite filter_cons_True by done.
    rewrite filter_cons_False; [done | simpl; congruence].
  - by rewrite filter_cons_False.
Qed.

Lemma reminders_delivered_app u (t1 t2 : list Event) :
  reminders_delivered u (t1 ++ t2) =
  (reminders_delivered u t1 + reminders_delivered u t2)%nat.
Proof.
  unfold reminders_delivered. by rewrite events_of_app, filter_app, length_app.
Qed.

Lemma reminders_delivered_events_of u (t1 t2 : list Event) :
  events_of u t1 = events_of u t2 →
  reminders_delivered u t1 = reminders_delivered u t2.
Proof. unfold reminders_delivered. by intros ->. Qed.

Lemma reminders_delivered_send u text d :
  reminders_delivered u [SendMessage u text d] = if d then 1%nat else 0%nat.
Proof.
  unfold reminders_delivered, events_of.
  rewrite filter_cons_True by done. simpl.
  destruct d; [rewrite filter_cons_True by done | rewrite filter_cons_False];
    simpl; congruence.
Qed.

(** C9.  A user whose handle is missing or empty is passed over by the
    sweep: no event of the trace belongs to the user (no feed request, no
    message), and the user's record is the same afterwards. *)
Theorem sweep_passes_over_user_without_handle w slot st u rec :
  DB st !! u = Some rec →
  truthy (handle rec) = false →
  events_of u (send_reminders env w slot st).2 = [] ∧
  DB (send_reminders env w slot st).1 !! u = Some rec.
Proof.
  intros Hrec Hh.
  destruct (send_reminders_at_user env w slot st u) as [-> ->].
  rewrite (remind_user_skipped _ _ _ _ _ rec) by auto. done.
Qed.

End Sweep.

Section SweepOutcomes.

Context (env : Env).

Lemma events_of_elem u e (trace : list Event) :
  e ∈ events_of u trace ↔ event_uid e = u ∧ e ∈ trace.
Proof. unfold events_of. by rewrite list_elem_of_filter. Qed.

(** The sweep for a user who is checked, in terms of the user's own
    events. *)
Lemma send_reminders_checked w slot st u rec :
  DB st !! u = Some rec →
  truthy (handle rec) = true →
  already_notified_today env (now w) (DB st) u slot (timezone rec) = false →
  let check :=
    cf_has_solved_today env (feed w u) (now w) (handle rec) (timezone rec) in
  let text := reminder_text slot (default EmptyString (handle rec)) in
  let requests := FeedRequest u <$> check.1 in
  let st' := (send_reminders env w slot st).1 in
  let trace := (send_reminders env w slot st).2 in
  if caught_as_false check.2
  then DB st' !! u = DB (mark_notified env (now w) u slot st) !! u ∧
       events_of u trace = events_of u requests
  else if deliver w u text
       then DB st' !! u = DB (mark_notified env (now w) u slot st) !! u ∧
            events_of u trace =
            events_of u (requests ++ [SendMessage u text true])
       else DB st' !! u = Some rec ∧
            events_of u trace =
            events_of u (requests ++ [SendMessage u text false]).
Proof.
  intros Hrec Hh Hnot check text requests st' trace.
  subst check text requests st' trace.
  destruct (send_reminders_at_user env w slot st u) as [-> ->].
  rewrite (remind_user_checked env w slot st [] u rec) by done.
  destruct (caught_as_false _); [|destruct (deliver w u _)];
    cbn [fst snd]; rewrite ?app_nil_l; auto.
Qed.

(** C6.  When the reminder for an unsolved user cannot be delivered, the
    sweep does not mark the slot: the user's record is the one from before
    the sweep, the failed attempt is the only message event, and a later
    sweep for the same slot on the same local day attempts the delivery
    again as long as the user has not solved. *)
Theorem delivery_failure_leaves_reminder_owed w w2 slot st u rec :
  DB st !! u = Some rec →
  truthy (handle rec) = true →
  already_notified_today env (now w) (DB st) u slot (timezone rec) = false →
  caught_as_false
    (cf_has_solved_today env (feed w u) (now w) (handle rec) (timezone rec)).2
    = false →
  deliver w u (reminder_text slot (default EmptyString (handle rec))) = false →
  let text := reminder_text slot (default EmptyString (handle rec)) in
  let st1 := (send_reminders env w slot st).1 in
  DB st1 !! u = Some rec ∧
  notified_entry (DB st1) u slot = notified_entry (DB st) u slot ∧
  reminders_delivered u (send_reminders env w slot st).2 = 0%nat ∧
  SendMessage u text false ∈ (send_reminders env w slot st).2 ∧
  (today_in env (resolve_tz env (timezone rec)) (now w2) =
     today_in env (resolve_tz env (timezone rec)) (now w) →
   caught_as_false
     (cf_has_solved_today env (feed w2 u) (now w2) (handle rec) (timezone rec)).2
     = false →
   SendMessage u text (deliver w2 u text) ∈ (send_reminders env w2 slot st1).2).
Proof.
  intros Hrec Hh Hnot Hunsolved Hfail text st1. subst text st1.
  pose proof (send_reminders_checked w slot st u rec Hrec Hh Hnot) as Hsweep.
  cbv zeta in Hsweep. rewrite Hunsolved, Hfail in Hsweep.
  destruct Hsweep as [Hdb Hev].
  split; [done|]. split; [unfold notified_entry; by rewrite Hdb, Hrec|].
  split.
  { rewrite (reminders_delivered_events_of _ _ _ Hev).
    by rewrite reminders_delivered_app, reminders_delivered_feed_requests,
      reminders_delivered_send. }
  split.
  { eapply events_of_elem. rewrite Hev, events_of_app.
    apply elem_of_app. right. apply events_of_elem. split; [done|].
    apply list_elem_of_here. }
  intros Hday Hunsolved2.
  assert (already_notified_today env (now w2)
            (DB (send_reminders env w slot st).1) u slot (timezone rec) = false)
    as Hnot2.
  { rewrite <- Hnot. apply already_notified_today_same_day; [|done].
    by rewrite Hdb, Hrec. }
  pose proof (send_reminders_checked w2 slot _ u rec Hdb Hh Hnot2) as Hsweep2.
  cbv zeta in Hsweep2. rewrite Hunsolved2 in Hsweep2.
  eapply events_of_elem.
  destruct (deliver w2 u _); destruct Hsweep2 as [_ ->];
    rewrite events_of_app; apply elem_of_app; right;
    apply events_of_elem; (split; [done|]); apply list_elem_of_here.
Qed.

End SweepOutcomes.

Section SweepDedup.

Context (env : Env).

Lemma notified_entry_local (db1 db2 : gmap string UserRecord) u slot :
  db1 !! u = db2 !! u → notified_entry db1 u slot = notified_entry db2 u slot.
Proof. unfold notified_entry. by intros ->. Qed.

Lemma send_reminders_absent w slot st u :
  DB st !! u = None →
  events_of u (send_reminders env w slot st).2 = [] ∧
  DB (send_reminders env w slot st).1 !! u = None.
Proof.
  intros Hnone. destruct (send_reminders_at_user env w slot st u) as [-> ->].
  unfold remind_user. by rewrite Hnone.
Qed.

Lemma send_reminders_skipped w slot st u rec :
  DB st !! u = Some rec →
  truthy (handle rec) = false ∨
  already_notified_today env (now w) (DB st) u slot (timezone rec) = true →
  events_of u (send_reminders env w slot st).2 = [] ∧
  DB (send_reminders env w slot st).1 !! u = Some rec.
Proof.
  intros Hrec Hskip.
  destruct (send_reminders_at_user env w slot st u) as [-> ->].
  by rewrite (remind_user_skipped _ _ _ _ _ _ rec).
Qed.

(** For a user whom the feed check reports as solved today the sweep
    sends nothing and marks the slot of this sweep, and no other: the entry
    of every other slot, and with it the answer of the dedup check for that
    slot at any later time, is what it was before the sweep. *)
Theorem solved_user_marks_swept_slot_only w slot st u rec slot' now' :
  DB st !! u = Some rec →
  truthy (handle rec) = true →
  already_notified_today env (now w) (DB st) u slot (timezone rec) = false →
  caught_as_false
    (cf_has_solved_today env (feed w u) (now w) (handle rec) (timezone rec)).2
    = true →
  slot' ≠ slot →
  let st1 := (send_reminders env w slot st).1 in
  (∀ text d, SendMessage u text d ∉ (send_reminders env w slot st).2) ∧
  notified_entry (DB st1) u slot = Some (isoformat (date_today env (now w))) ∧
  notified_entry (DB st1) u slot' = notified_entry (DB st) u slot' ∧
  already_notified_today env now' (DB st1) u slot' (timezone rec) =
    already_notified_today env now' (DB st) u slot' (timezone rec).
Proof.
  intros Hrec Hh Hnot Hsolved Hslot st1. subst st1.
  pose proof (send_reminders_checked env w slot st u rec Hrec Hh Hnot) as Hsweep.
  cbv zeta in Hsweep. rewrite Hsolved in Hsweep. destruct Hsweep as [Hdb Hev].
  assert (notified_entry (DB (send_reminders env w slot st).1) u slot' =
          notified_entry (DB st) u slot') as Hother.
  { rewrite (notified_entry_local _ _ _ _ Hdb).
    by apply mark_notified_entry_ne. }
  split.
  { intros text d Hin.
    assert (SendMessage u text d ∈ events_of u (send_reminders env w slot st).2)
      as Hin' by by apply events_of_elem.
    rewrite Hev in Hin'. apply events_of_elem in Hin' as [_ Hin'].
    by apply list_elem_of_fmap in Hin' as (h & ? & _). }
  split.
  { rewrite (notified_entry_local _ _ _ _ Hdb). apply mark_notified_entry. }
  split; [done|].
  by rewrite !already_notified_today_entry, Hother.
Qed.

Lemma sweep_delivers_at_most_one w slot st u :
  (reminders_delivered u (send_reminders env w slot st).2 ≤ 1)%nat.
Proof.
  destruct (DB st !! u) as [rec|] eqn:Hrec.
  2: { destruct (send_reminders_absent w slot st u Hrec) as [Hev _].
       unfold reminders_delivered. by rewrite Hev; simpl; lia. }
  destruct (truthy (handle rec)) eqn:Hh.
  2: { destruct (send_reminders_skipped w slot st u rec Hrec) as [Hev _]; [auto|].
       unfold reminders_delivered. by rewrite Hev; simpl; lia. }
  destruct (already_notified_today env (now w) (DB st) u slot (timezone rec))
    eqn:Hnot.
  { destruct (send_reminders_skipped w slot st u rec Hrec) as [Hev _]; [auto|].
    unfold reminders_delivered. by rewrite Hev; simpl; lia. }
  pose proof (send_reminders_checked env w slot st u rec Hrec Hh Hnot) as Hsweep.
  cbv zeta in Hsweep.
  destruct (caught_as_false _); [|destruct (deliver w u _)];
    destruct Hsweep as [_ Hev];
    rewrite (reminders_delivered_events_of _ _ _ Hev);
    rewrite ?reminders_delivered_app, ?reminders_delivered_feed_requests,
      ?reminders_delivered_send; lia.
Qed.

(** Two sweeps for one slot deliver at most one reminder to a user whenever
    the date the first sweep writes (the host's) is the date the second
    sweep compares with (the one of the user's resolved zone). *)
Lemma two_sweeps_at_most_one_when_dates_agree w1 w2 slot st u :
  (∀ rec, DB st !! u = Some rec →
     date_today env (now w1) =
     today_in env (resolve_tz env (timezone rec)) (now w2)) →
  (reminders_delivered u (send_reminders env w1 slot st).2 +
   reminders_delivered u
     (send_reminders env w2 slot (send_reminders env w1 slot st).1).2 ≤ 1)%nat.
Proof.
  intros Hagree.
  pose proof (sweep_delivers_at_most_one w2 slot
                (send_reminders env w1 slot st).1 u) as Hsecond.
  destruct (DB st !! u) as [rec|] eqn:Hrec.
  2: { destruct (send_reminders_absent w1 slot st u Hrec) as [Hev _].
       unfold reminders_delivered at 1. rewrite Hev; simpl; lia. }
  destruct (truthy (handle rec)) eqn:Hh.
  2: { destruct (send_reminders_skipped w1 slot st u rec Hrec) as [Hev _]; [auto|].
       unfold reminders_delivered at 1. rewrite Hev; simpl; lia. }
  destruct (already_notified_today env (now w1) (DB st) u slot (timezone rec))
    eqn:Hnot.
  { destruct (send_reminders_skipped w1 slot st u rec Hrec) as [Hev _]; [auto|].
    unfold reminders_delivered at 1. rewrite Hev; simpl; lia. }
  pose proof (send_reminders_checked env w1 slot st u rec Hrec Hh Hnot) as Hsweep.
  cbv zeta in Hsweep.
  destruct (caught_as_false _); [|destruct (deliver w1 u _)];
    destruct Hsweep as [Hdb Hev];
    rewrite (reminders_delivered_events_of _ _ _ Hev);
    rewrite ?reminders_delivered_app, ?reminders_delivered_feed_requests,
      ?reminders_delivered_send; [lia| |lia].
  (* delivered and marked by the first sweep: the second one skips *)
  rewrite mark_notified_lookup, Hrec in Hdb. simpl in Hdb.
  destruct (send_reminders_skipped w2 slot _ u _ Hdb) as [Hev2 _].
  { right. simpl. rewrite already_notified_today_entry.
    apply bool_decide_eq_true.
    rewrite (notified_entry_local _ (DB (mark_notified env (now w1) u slot st)))
      by by rewrite Hdb, mark_notified_lookup, Hrec.
    rewrite mark_notified_entry. by rewrite (Hagree rec). }
  unfold reminders_delivered. rewrite Hev2. simpl. lia.
Qed.

End SweepDedup.

(** ** The claims on concrete runs *)

(** The dates in play: at the 08:00 slot on the two hosts, and at the 22:00
    slot on the Tashkent host and in Tokyo. *)
Example dates_at_the_slots :
  isoformat (date_today env_pacific_host slot_0800) = "2024-01-14" ∧
  isoformat (today_in env_pacific_host "Asia/Tashkent" slot_0800) = "2024-01-15" ∧
  isoformat (date_today env_tashkent_host slot_0800) = "2024-01-15" ∧
  isoformat (date_today env_tashkent_host slot_2200) = "2024-01-15" ∧
  isoformat (today_in env_tashkent_host "Asia/Tokyo" slot_2200) = "2024-01-16".
Proof. by vm_compute. Qed.

(** C1, on a host that runs in the bot's default zone: a user in Tokyo has
    not solved, delivery works, and the sweep for the 22:00 slot runs twice at
    the same instant.  The first sweep writes the host's date 2024-01-15 under
    the slot; the second compares with the user's date 2024-01-16, does not
    find the user notified and sends again: two reminders for one slot on one
    day. *)
Theorem second_sweep_sends_again :
  let first := send_reminders env_tashkent_host (world_unsolved slot_2200)
                 "22:00" st_tokyo in
  let second := send_reminders env_tashkent_host (world_unsolved slot_2200)
                  "22:00" first.1 in
  reminders_delivered "42" first.2 = 1%nat ∧
  notified_entry (DB first.1) "42" "22:00" = Some "2024-01-15" ∧
  reminders_delivered "42" second.2 = 1%nat.
Proof. by vm_compute. Qed.

(** C2, on the same host and for the same user: the check right after the
    mark answers no. *)
Theorem check_after_mark_answers_no :
  timezone <$> DB st_tokyo !! "42" = Some "Asia/Tokyo" ∧
  already_notified_today env_tashkent_host slot_2200
    (DB (mark_notified env_tashkent_host slot_2200 "42" "22:00" st_tokyo))
    "42" "22:00" "Asia/Tokyo" = false.
Proof. by vm_compute. Qed.

(** C3 on the Pacific host, with the default zone Asia/Tashkent: at 08:00
    in Tashkent [mark_notified] writes 2024-01-14, the date of the host, where
    the date in the reference zone is 2024-01-15; the check right after the
    mark, made in the reference zone, answers no. *)
Theorem mark_notified_misses_reference_zone_date :
  let st' := mark_notified env_pacific_host slot_0800 "42" "08:00" st_tourist in
  notified_entry (DB st') "42" "08:00" = Some "2024-01-14" ∧
  isoformat (today_in env_pacific_host (DEFAULT_TZ env_pacific_host) slot_0800)
    = "2024-01-15" ∧
  already_notified_today env_pacific_host slot_0800 (DB st')
    "42" "08:00" (DEFAULT_TZ env_pacific_host) = false.
Proof. by vm_compute. Qed.

(** On the Tashkent host the two dates agree, and the entry is the date of
    the default zone. *)
Lemma mark_notified_sets_host_date_witness :
  date_today env_tashkent_host slot_0800 =
    today_in env_tashkent_host (DEFAULT_TZ env_tashkent_host) slot_0800 ∧
  notified_entry
    (DB (mark_notified env_tashkent_host slot_0800 "42" "08:00" st_tourist))
    "42" "08:00" =
  Some (isoformat (today_in env_tashkent_host (DEFAULT_TZ env_tashkent_host)
                     slot_0800)).
Proof.
  assert (date_today env_tashkent_host slot_0800 =
          today_in env_tashkent_host (DEFAULT_TZ env_tashkent_host) slot_0800)
    as Hsame by by vm_compute.
  split; [done|].
  by apply (mark_notified_sets_host_date env_tashkent_host slot_0800
              "42" "08:00" st_tourist).
Defined.

(** C4 on two feeds that hold a submission accepted and dated today.  The
    first reports the status FAILED, and the function says no.  The second
    reports OK and lists, before that submission, one accepted at a time
    that [datetime] cannot hold: the function raises. *)
Lemma accepted_submission_ignored_under_failed_status :
  (cf_has_solved_today env_tashkent_host fetch_failed_with_result slot_0800
     (Some "tourist") "Asia/Tashkent").2 = Returns false ∧
  (cf_has_solved_today env_tashkent_host
     (λ _, FeedData (Some "OK") subs_overflow_first) slot_0800
     (Some "tourist") "Asia/Tashkent").2 = Raises ∧
  ∃ sub, sub ∈ [{| verdict := Some "OK"; creationTimeSeconds := Some 1705287300 |}] ∧
         sub ∈ subs_overflow_first ∧
         counts_today env_tashkent_host "Asia/Tashkent"
           (today_in env_tashkent_host "Asia/Tashkent" slot_0800) sub.
Proof.
  split; [by vm_compute|]. split; [by vm_compute|].
  eexists. split; [apply list_elem_of_here|].
  split; [apply list_elem_of_further, list_elem_of_here|].
  split; [done|]. by eexists.
Qed.

(** The equivalence at the feed with the submission accepted at 07:55. *)
Lemma cf_has_solved_today_iff_witness :
  ∃ b : bool,
    cf_has_solved_today env_tashkent_host (feed_accepted_0755 "42") slot_0800
      (Some "tourist") "Asia/Tashkent" = (["tourist"], Returns b) ∧
    (b = true ↔
     ∃ sub, sub ∈ [{| verdict := Some "OK";
                      creationTimeSeconds := Some 1705287300 |}] ∧
            counts_today env_tashkent_host
              (resolve_tz env_tashkent_host "Asia/Tashkent")
              (today_in env_tashkent_host
                 (resolve_tz env_tashkent_host "Asia/Tashkent") slot_0800) sub).
Proof.
  apply (cf_has_solved_today_iff env_tashkent_host (feed_accepted_0755 "42")
           slot_0800 "tourist" "Asia/Tashkent");
    [discriminate | reflexivity | convertible_list].
Defined.

(** A submission accepted yesterday by the UTC calendar and today by the
    user's counts as today. *)
Example accepted_after_local_midnight_counts :
  isoformat (date_of_timestamp 0 1705262400) = "2024-01-14" ∧
  cf_has_solved_today env_tashkent_host fetch_accepted_after_midnight slot_0800
    (Some "tourist") "Asia/Tashkent" = (["tourist"], Returns true).
Proof. by vm_compute. Qed.

(** C5 on the Tashkent host: the user has solved at 07:55, so the 08:00
    sweep marks the slot 08:00.  The 12:00 slot of the same day is not
    marked: the check for it answers no, the sweep asks the feed again, and
    with the feed down at noon the user is reminded. *)
Lemma later_slot_is_not_suppressed :
  let first := send_reminders env_tashkent_host (world_solved slot_0800)
                 "08:00" st_tourist in
  let second := send_reminders env_tashkent_host (world_feed_down slot_1200)
                  "12:00" first.1 in
  reminders_delivered "42" first.2 = 0%nat ∧
  notified_entry (DB first.1) "42" "08:00" = Some "2024-01-15" ∧
  notified_entry (DB first.1) "42" "12:00" = None ∧
  already_notified_today env_tashkent_host slot_1200 (DB first.1)
    "42" "12:00" "Asia/Tashkent" = false ∧
  isoformat (today_in env_tashkent_host "Asia/Tashkent" slot_1200) = "2024-01-15" ∧
  reminders_delivered "42" second.2 = 1%nat.
Proof. by vm_compute. Qed.

(** The same 08:00 sweep, seen through the general statement: 12:00 keeps
    its (missing) entry. *)
Lemma solved_user_marks_swept_slot_only_witness :
  let first := send_reminders env_tashkent_host (world_solved slot_0800)
                 "08:00" st_tourist in
  (∀ text d, SendMessage "42" text d ∉ first.2) ∧
  notified_entry (DB first.1) "42" "08:00" =
    Some (isoformat (date_today env_tashkent_host slot_0800)) ∧
  notified_entry (DB first.1) "42" "12:00" =
    notified_entry (DB st_tourist) "42" "12:00" ∧
  already_notified_today env_tashkent_host slot_1200 (DB first.1)
    "42" "12:00" "Asia/Tashkent" =
  already_notified_today env_tashkent_host slot_1200 (DB st_tourist)
    "42" "12:00" "Asia/Tashkent".
Proof.
  apply (solved_user_marks_swept_slot_only env_tashkent_host
           (world_solved slot_0800) "08:00" st_tourist "42"
           {| handle := Some "tourist"; timezone := "Asia/Tashkent";
              last_notified := None |} "12:00" slot_1200);
    by vm_compute.
Defined.

(** A failed delivery at 08:00, then a sweep for the same slot in which the
    delivery works. *)
Lemma delivery_failure_leaves_reminder_owed_witness :
  let text := reminder_text "08:00" "tourist" in
  let first := send_reminders env_tashkent_host (world_delivery_fails slot_0800)
                 "08:00" st_tourist in
  DB first.1 !! "42" = DB st_tourist !! "42" ∧
  reminders_delivered "42" first.2 = 0%nat ∧
  SendMessage "42" text false ∈ first.2 ∧
  SendMessage "42" text true ∈
    (send_reminders env_tashkent_host (world_unsolved slot_0800) "08:00" first.1).2.
Proof.
  destruct (delivery_failure_leaves_reminder_owed env_tashkent_host
              (world_delivery_fails slot_0800) (world_unsolved slot_0800)
              "08:00" st_tourist "42"
              {| handle := Some "tourist"; timezone := "Asia/Tashkent";
                 last_notified := None |})
    as (Hrec & _ & Hnone & Hfailed & Hretry); try by vm_compute.
  cbv zeta. split; [rewrite Hrec; by vm_compute|].
  split; [done|]. split; [done|].
  apply Hretry; by vm_compute.
Defined.

(** /settz Mars/Phobos *)
Lemma cmd_settz_rejects_unknown_zone_witness :
  ("Mars/Phobos" ∉ all_timezones env_tashkent_host) ∧
  cmd_settz env_tashkent_host "42" ["Mars/Phobos"] st_tourist =
    (st_tourist, settz_rejected).
Proof.
  assert ("Mars/Phobos" ∉ all_timezones env_tashkent_host) as Hbad.
  { apply (bool_decide_unpack _). by vm_compute. }
  split; [done|].
  by apply (cmd_settz_rejects_unknown_zone env_tashkent_host "42"
              "Mars/Phobos" [] st_tourist).
Defined.

(** User 7 has sent /start only. *)
Lemma sweep_passes_over_user_without_handle_witness :
  DB st_two_users !! "7" = Some (UserRecord_default env_tashkent_host) ∧
  events_of "7"
    (send_reminders env_tashkent_host (world_unsolved slot_0800)
       "08:00" st_two_users).2 = [] ∧
  DB (send_reminders env_tashkent_host (world_unsolved slot_0800)
        "08:00" st_two_users).1 !! "7" =
    Some (UserRecord_default env_tashkent_host).
Proof.
  assert (DB st_two_users !! "7" = Some (UserRecord_default env_tashkent_host))
    as Hrec by by vm_compute.
  split; [done|].
  by apply (sweep_passes_over_user_without_handle env_tashkent_host
              (world_unsolved slot_0800) "08:00" st_two_users "7"
              (UserRecord_default env_tashkent_host)).
Defined.

(** Marking 08:00 for user 42 leaves 12:00 and user 7 alone. *)
Lemma mark_notified_frame_witness :
  let st' := mark_notified env_tashkent_host slot_0800 "42" "08:00" st_two_users in
  handle <$> DB st' !! "42" = Some (Some "tourist") ∧
  timezone <$> DB st' !! "42" = Some "Asia/Tashkent" ∧
  notified_entry (DB st') "42" "12:00" = notified_entry (DB st_two_users) "42" "12:00" ∧
  DB st' !! "7" = DB st_two_users !! "7".
Proof.
  destruct (mark_notified_frame env_tashkent_host slot_0800 "42" "08:00"
              st_two_users "7" "12:00") as (Hh & Htz & Hslot & Hother);
    [discriminate | discriminate |].
  cbv zeta. split; [rewrite Hh; by vm_compute|].
  split; [rewrite Htz; by vm_compute|]. by split.
Defined.

(** * Further properties of the code *)

(** ** Persistence *)

Section MorePersistence.

Context (env : Env).


Lemma to_dict_reloaded rec : to_dict (reloaded rec) = to_dict rec.
Proof. done. Qed.

(** Saving is stable under a restart: the store loaded from a saved file is
    saved as the same document, and loading that document gives the loaded
    store again. *)
Theorem save_load_save_is_stable (db db' : gmap string UserRecord) :
  load_db env (save_db db) = Some db' →
  save_db db' = save_db db ∧ load_db env (save_db db') = Some db'.
Proof.
  rewrite load_db_save_db. intros [= <-].
  assert (dump_db (reloaded <$> db) = dump_db db) as Hdump.
  { unfold dump_db. f_equal. rewrite <- map_fmap_compose.
    apply map_fmap_ext. intros k rec _. apply to_dict_reloaded. }
  unfold save_db. rewrite Hdump. split; [done|].
  change (Some (dump_db db)) with (save_db db). apply load_db_save_db.
Qed.

End MorePersistence.

(** ** The feed check and the zone fallback *)

Section MoreFeed.

Context (env : Env).

Lemma resolve_tz_default : resolve_tz env (DEFAULT_TZ env) = DEFAULT_TZ env.
Proof. unfold resolve_tz. by case_decide. Qed.

Lemma resolve_tz_unknown tz :
  tz ∉ all_timezones env → resolve_tz env tz = resolve_tz env (DEFAULT_TZ env).
Proof.
  intros Hbad. rewrite resolve_tz_default. unfold resolve_tz.
  by rewrite decide_False.
Qed.

(** A timezone name outside [all_timezones] is read as [DEFAULT_TZ], by the
    dedup check and by the feed check alike. *)
Theorem unknown_zone_read_as_default now (db : gmap string UserRecord)
    u slot fetch h tz :
  tz ∉ all_timezones env →
  already_notified_today env now db u slot tz =
    already_notified_today env now db u slot (DEFAULT_TZ env) ∧
  cf_has_solved_today env fetch now h tz =
    cf_has_solved_today env fetch now h (DEFAULT_TZ env).
Proof.
  intros Hbad. split.
  - rewrite !already_notified_today_entry. by rewrite resolve_tz_unknown.
  - unfold cf_has_solved_today. by rewrite resolve_tz_unknown.
Qed.

Lemma scan_submissions_perm user_tz today_local (subs subs' : list Submission) :
  all_convertible env user_tz subs →
  subs ≡ₚ subs' →
  scan_submissions env user_tz today_local subs =
  scan_submissions env user_tz today_local subs'.
Proof.
  intros Hall Hperm.
  assert (all_convertible env user_tz subs') as Hall'.
  { intros sub ts Hin. apply Hall. by rewrite Hperm. }
  destruct (scan_submissions_convertible env user_tz today_local subs Hall)
    as (b & -> & Hb).
  destruct (scan_submissions_convertible env user_tz today_local subs' Hall')
    as (b' & -> & Hb').
  f_equal. destruct b, b'; try done.
  - symmetry. apply Hb'. destruct Hb as [Hb _].
    destruct (Hb eq_refl) as (sub & Hin & Hsub).
    exists sub. by rewrite <- Hperm.
  - apply Hb. destruct Hb' as [Hb' _].
    destruct (Hb' eq_refl) as (sub & Hin & Hsub).
    exists sub. by rewrite Hperm.
Qed.

(** When every accepted timestamp of the feed can be converted, the answer
    does not depend on the order in which the feed lists the submissions.
    (A timestamp that cannot be converted makes the scan raise when it is
    reached, and whether it is reached depends on the order.) *)
Theorem cf_has_solved_today_order_independent fetch fetch' now h tz
    status (result result' : list Submission) :
  fetch h = FeedData status result →
  fetch' h = FeedData status result' →
  all_convertible env (resolve_tz env tz) result →
  result ≡ₚ result' →
  cf_has_solved_today env fetch now (Some h) tz =
  cf_has_solved_today env fetch' now (Some h) tz.
Proof.
  intros Hfetch Hfetch' Hall Hperm. unfold cf_has_solved_today.
  rewrite Hfetch, Hfetch'.
  by rewrite (scan_submissions_perm _ _ _ _ Hall Hperm).
Qed.

End MoreFeed.

(** ** Marking twice, and in either order *)

Section MoreMarks.

Context (env : Env).

Lemma mark_record_twice rec slot now1 now2 :
  date_today env now1 = date_today env now2 →
  mark_record env (mark_record env rec slot now1) slot now2 =
  mark_record env rec slot now1.
Proof.
  intros Hday. unfold mark_record, notified_map; simpl.
  by rewrite insert_insert_eq, Hday.
Qed.

(** Marking a slot a second time on the same host date changes nothing:
    store and data file stay as the first mark left them. *)
Theorem mark_notified_twice now1 now2 u slot st :
  date_today env now1 = date_today env now2 →
  mark_notified env now2 u slot (mark_notified env now1 u slot st) =
  mark_notified env now1 u slot st.
Proof.
  intros Hday.
  assert (DB (mark_notified env now2 u slot (mark_notified env now1 u slot st)) =
          DB (mark_notified env now1 u slot st)) as Hdb.
  { unfold mark_notified; simpl. rewrite lookup_insert_eq; simpl.
    by rewrite insert_insert_eq, mark_record_twice. }
  unfold mark_notified in *; simpl in *. by rewrite Hdb.
Qed.

Lemma mark_record_commute rec slot1 slot2 now1 now2 :
  slot1 ≠ slot2 →
  mark_record env (mark_record env rec slot1 now1) slot2 now2 =
  mark_record env (mark_record env rec slot2 now2) slot1 now1.
Proof.
  intros Hne. unfold mark_record, notified_map; simpl.
  by rewrite insert_insert_ne.
Qed.

Lemma mark_notified_commute_maps now1 now2 u1 u2 slot1 slot2 st :
  u1 ≠ u2 ∨ slot1 ≠ slot2 →
  DB (mark_notified env now2 u2 slot2 (mark_notified env now1 u1 slot1 st)) =
  DB (mark_notified env now1 u1 slot1 (mark_notified env now2 u2 slot2 st)).
Proof.
  intros Hne. unfold mark_notified; simpl.
  destruct (decide (u1 = u2)) as [<-|Hu].
  - destruct Hne as [?|Hslot]; [done|].
    rewrite !lookup_insert_eq; simpl. rewrite !insert_insert_eq.
    by rewrite mark_record_commute.
  - rewrite !lookup_insert_ne by done. by rewrite insert_insert_ne.
Qed.

(** Two marks for different users or different slots lead, in either order,
    to the same record for every user (the same handle and timezone, the
    same date under every slot) and to data files that load as the same
    store.  The order of the keys, in the dictionaries and in the text of the
    file, follows the order of the calls and is not part of this. *)
Theorem mark_notified_commute now1 now2 u1 u2 slot1 slot2 st u slot :
  u1 ≠ u2 ∨ slot1 ≠ slot2 →
  let a := mark_notified env now2 u2 slot2 (mark_notified env now1 u1 slot1 st) in
  let b := mark_notified env now1 u1 slot1 (mark_notified env now2 u2 slot2 st) in
  handle <$> DB a !! u = handle <$> DB b !! u ∧
  timezone <$> DB a !! u = timezone <$> DB b !! u ∧
  notified_entry (DB a) u slot = notified_entry (DB b) u slot ∧
  load_db env (DATA_FILE a) = load_db env (DATA_FILE b).
Proof.
  intros Hne a b. subst a b.
  pose proof (mark_notified_commute_maps now1 now2 u1 u2 slot1 slot2 st Hne)
    as Hdb.
  rewrite !mark_notified_file, Hdb. done.
Qed.

End MoreMarks.

(** ** More on the sweep *)

Section MoreSweep.

Context (env : Env).

(** A user with a handle who has not solved, or whose feed request fails,
    and whose message is delivered: the sweep issues the feed request,
    delivers exactly one reminder and marks the slot with the host's date. *)
Theorem unsolved_user_is_reminded_and_marked w slot st u rec :
  DB st !! u = Some rec →
  truthy (handle rec) = true →
  already_notified_today env (now w) (DB st) u slot (timezone rec) = false →
  caught_as_false
    (cf_has_solved_today env (feed w u) (now w) (handle rec) (timezone rec)).2
    = false →
  deliver w u (reminder_text slot (default EmptyString (handle rec))) = true →
  reminders_delivered u (send_reminders env w slot st).2 = 1%nat ∧
  SendMessage u (reminder_text slot (default EmptyString (handle rec))) true
    ∈ (send_reminders env w slot st).2 ∧
  notified_entry (DB (send_reminders env w slot st).1) u slot =
    Some (isoformat (date_today env (now w))).
Proof.
  intros Hrec Hh Hnot Hunsolved Hsent.
  pose proof (send_reminders_checked env w slot st u rec Hrec Hh Hnot) as Hsweep.
  cbv zeta in Hsweep. rewrite Hunsolved, Hsent in Hsweep.
  destruct Hsweep as [Hdb Hev]. split.
  { rewrite (reminders_delivered_events_of _ _ _ Hev).
    by rewrite reminders_delivered_app, reminders_delivered_feed_requests,
      reminders_delivered_send. }
  split.
  { eapply events_of_elem. rewrite Hev, events_of_app.
    apply elem_of_app. right. apply events_of_elem. split; [done|].
    apply list_elem_of_here. }
  rewrite (notified_entry_local _ _ _ _ Hdb). apply mark_notified_entry.
Qed.

(** A user whose entry for the slot is today's date in the user's resolved
    zone is passed over: no feed request, no message, the record as it
    was. *)
Theorem notified_user_is_passed_over w slot st u rec :
  DB st !! u = Some rec →
  notified_entry (DB st) u slot =
    Some (isoformat (today_in env (resolve_tz env (timezone rec)) (now w))) →
  events_of u (send_reminders env w slot st).2 = [] ∧
  DB (send_reminders env w slot st).1 !! u = Some rec.
Proof.
  intros Hrec Hentry. apply send_reminders_skipped; [done|]. right.
  rewrite already_notified_today_entry. by apply bool_decide_eq_true.
Qed.

Lemma remind_user_frame w slot acc u slot' :
  slot' ≠ slot →
  handle <$> DB (remind_user env w slot acc u).1 !! u = handle <$> DB acc.1 !! u ∧
  timezone <$> DB (remind_user env w slot acc u).1 !! u =
    timezone <$> DB acc.1 !! u ∧
  notified_entry (DB (remind_user env w slot acc u).1) u slot' =
    notified_entry (DB acc.1) u slot'.
Proof.
  intros Hslot. destruct acc as [st trace]. unfold remind_user.
  destruct (DB st !! u) as [rec|] eqn:Hrec; [|done].
  destruct (negb (truthy (handle rec))); [done|].
  destruct (already_notified_today _ _ _ _ _ _); [done|].
  destruct (cf_has_solved_today _ _ _ _ _) as [requests answer].
  destruct (negb _); [destruct (deliver w u _)|]; cbn [fst snd]; try done;
    rewrite mark_notified_lookup, mark_notified_entry_ne, Hrec by done; done.
Qed.

(** A sweep for a slot changes nothing in the store but the entries of that
    slot: every user is still there with the same handle and timezone, no
    user is added, and the entries of the other slots are as before. *)
Theorem sweep_changes_swept_slot_only w slot st u slot' :
  slot' ≠ slot →
  handle <$> DB (send_reminders env w slot st).1 !! u = handle <$> DB st !! u ∧
  timezone <$> DB (send_reminders env w slot st).1 !! u =
    timezone <$> DB st !! u ∧
  notified_entry (DB (send_reminders env w slot st).1) u slot' =
    notified_entry (DB st) u slot'.
Proof.
  intros Hslot.
  destruct (send_reminders_at_user env w slot st u) as [Hdb _].
  rewrite (notified_entry_local _ _ _ _ Hdb), Hdb.
  by apply (remind_user_frame w slot (st, []) u slot').
Qed.

(** What a sweep does for a user, to the record and on the network, depends
    on that user's record only, whatever else the store holds. *)
Theorem sweep_treats_users_independently w slot st1 st2 u :
  DB st1 !! u = DB st2 !! u →
  DB (send_reminders env w slot st1).1 !! u =
    DB (send_reminders env w slot st2).1 !! u ∧
  events_of u (send_reminders env w slot st1).2 =
    events_of u (send_reminders env w slot st2).2.
Proof.
  intros Hdb.
  destruct (send_reminders_at_user env w slot st1 u) as [-> ->].
  destruct (send_reminders_at_user env w slot st2 u) as [-> ->].
  by apply remind_user_local.
Qed.

Lemma events_of_own_requests u (hs : list string) :
  events_of u (FeedRequest u <$> hs) = FeedRequest u <$> hs.
Proof.
  unfold events_of. induction hs as [|h hs IH]; [done|].
  cbn [fmap list_fmap]. rewrite filter_cons_True by done. by f_equal.
Qed.

Lemma events_of_own_send u text d :
  events_of u [SendMessage u text d] = [SendMessage u text d].
Proof. unfold events_of. by rewrite filter_cons_True. Qed.

Lemma feed_requests_only u (hs : list string) :
  filter (λ e, is_feed_request e = true) (FeedRequest u <$> hs) =
    FeedRequest u <$> hs ∧
  filter (λ e, is_send_attempt e = true) (FeedRequest u <$> hs) = [].
Proof.
  induction hs as [|h hs [IH1 IH2]]; [done|]. cbn [fmap list_fmap].
  rewrite filter_cons_True, filter_cons_False by done. by rewrite IH1, IH2.
Qed.

Lemma cf_has_solved_today_one_request fetch now h tz :
  (length (cf_has_solved_today env fetch now h tz).1 ≤ 1)%nat.
Proof.
  unfold cf_has_solved_today. destruct h as [h|]; [|simpl; lia].
  destruct (negb _); simpl; lia.
Qed.

(** One sweep makes at most one feed request and at most one delivery
    attempt for a user, and so delivers at most one reminder. *)
Theorem sweep_makes_at_most_two_calls w slot st u :
  let own := events_of u (send_reminders env w slot st).2 in
  (length (filter (λ e, is_feed_request e = true) own) ≤ 1)%nat ∧
  (length (filter (λ e, is_send_attempt e = true) own) ≤ 1)%nat ∧
  (length own ≤ 2)%nat ∧
  (reminders_delivered u (send_reminders env w slot st).2 ≤ 1)%nat.
Proof.
  intros own. subst own.
  split; [|split; [|split; [|apply sweep_delivers_at_most_one]]].
  all: destruct (DB st !! u) as [rec|] eqn:Hrec;
    [|destruct (send_reminders_absent env w slot st u Hrec) as [-> _];
      simpl; lia].
  all: destruct (truthy (handle rec)) eqn:Hh;
    [|destruct (send_reminders_skipped env w slot st u rec Hrec) as [-> _];
      [auto | simpl; lia]].
  all: destruct (already_notified_today env (now w) (DB st) u slot
                   (timezone rec)) eqn:Hnot;
    [destruct (send_reminders_skipped env w slot st u rec Hrec) as [-> _];
      [auto | simpl; lia]|].
  all: pose proof (send_reminders_checked env w slot st u rec Hrec Hh Hnot)
    as Hsweep; cbv zeta in Hsweep.
  all: pose proof (cf_has_solved_today_one_request (feed w u) (now w)
                     (handle rec) (timezone rec)) as Hone.
  all: destruct (feed_requests_only u
                   (cf_has_solved_today env (feed w u) (now w)
                      (handle rec) (timezone rec)).1) as [Hreq Hnosend].
  all: destruct (caught_as_false _); [|destruct (deliver w u _)];
    destruct Hsweep as [_ ->];
    rewrite ?events_of_app, ?events_of_own_requests, ?events_of_own_send,
      ?filter_app, ?Hreq, ?Hnosend, ?length_app, ?length_fmap;
    simpl; lia.
Qed.

End MoreSweep.

(** ** What holds in every reachable state *)

Section Reachable.

Context (env : Env).

Lemma remind_user_durable w slot acc u :
  load_db env (DATA_FILE acc.1) = Some (reloaded <$> DB acc.1) →
  load_db env (DATA_FILE (remind_user env w slot acc u).1) =
  Some (reloaded <$> DB (remind_user env w slot acc u).1).
Proof.
  intros Hacc. destruct acc as [st trace]. unfold remind_user.
  destruct (DB st !! u) as [rec|]; [|done].
  destruct (negb (truthy (handle rec))); [done|].
  destruct (already_notified_today _ _ _ _ _ _); [done|].
  destruct (cf_has_solved_today _ _ _ _ _) as [requests answer].
  destruct (negb _); [destruct (deliver w u _)|]; cbn [fst snd]; try done;
    rewrite mark_notified_file; apply load_db_save_db.
Qed.

Lemma sweep_durable w slot acc (us : list string) :
  load_db env (DATA_FILE acc.1) = Some (reloaded <$> DB acc.1) →
  load_db env (DATA_FILE (foldl (remind_user env w slot) acc us).1) =
  Some (reloaded <$> DB (foldl (remind_user env w slot) acc us).1).
Proof.
  revert acc. induction us as [|u us IH]; intros acc Hacc; [done|].
  simpl. apply IH. by apply remind_user_durable.
Qed.

(** In every reachable state the data file holds the store: a restart, which
    loads the file, finds every user with the same handle, timezone and
    dates.  No handler and no sweep returns before its change is saved. *)
Theorem reachable_state_survives_restart st :
  reachable env st →
  load_db env (DATA_FILE st) = Some (reloaded <$> DB st).
Proof.
  induction 1 as [|uid st _ IH|uid args st _ IH|uid args st _ IH|w slot st _ IH].
  - simpl. by rewrite fmap_empty.
  - unfold cmd_start; simpl. apply load_db_save_db.
  - unfold cmd_sethandle. destruct args as [|h args]; simpl; [done|].
    apply load_db_save_db.
  - unfold cmd_settz. destruct args as [|tz args]; simpl; [done|].
    case_decide; simpl; [apply load_db_save_db | done].
  - unfold send_reminders. by apply sweep_durable.
Qed.

Lemma remind_user_timezone w slot acc u :
  timezone <$> DB (remind_user env w slot acc u).1 !! u =
  timezone <$> DB acc.1 !! u.
Proof.
  destruct acc as [st trace]. unfold remind_user.
  destruct (DB st !! u) as [rec|] eqn:Hrec; [|done].
  destruct (negb (truthy (handle rec))); [done|].
  destruct (already_notified_today _ _ _ _ _ _); [done|].
  destruct (cf_has_solved_today _ _ _ _ _) as [requests answer].
  destruct (negb _); [destruct (deliver w u _)|]; cbn [fst snd]; try done;
    by rewrite mark_notified_lookup, Hrec.
Qed.

(** In every reachable state each stored timezone is a known zone or the
    default zone, so that reading it never falls back to another zone. *)
Theorem reachable_timezones_are_valid st u rec :
  reachable env st →
  DB st !! u = Some rec →
  (timezone rec ∈ all_timezones env ∨ timezone rec = DEFAULT_TZ env) ∧
  resolve_tz env (timezone rec) = timezone rec.
Proof.
  intros Hst Hrec.
  assert (timezone rec ∈ all_timezones env ∨ timezone rec = DEFAULT_TZ env)
    as Hvalid.
  { revert u rec Hrec.
    induction Hst as [|uid st _ IH|uid args st _ IH|uid args st _ IH|w slot st _ IH];
      intros u rec.
    - simpl. by rewrite lookup_empty.
    - unfold cmd_start; simpl. destruct (DB st !! uid) eqn:Huid; [apply IH|].
      destruct (decide (uid = u)) as [->|Hne].
      + rewrite lookup_insert_eq. intros [= <-]. by right.
      + rewrite lookup_insert_ne by done. apply IH.
    - unfold cmd_sethandle. destruct args as [|h args]; simpl; [apply IH|].
      destruct (decide (uid = u)) as [->|Hne].
      + rewrite lookup_insert_eq. intros [= <-]; simpl.
        destruct (DB st !! u) as [old|] eqn:Hold; simpl; [by eapply IH|by right].
      + rewrite lookup_insert_ne by done. apply IH.
    - unfold cmd_settz. destruct args as [|tz args]; simpl; [apply IH|].
      case_decide; simpl; [|apply IH].
      destruct (decide (uid = u)) as [->|Hne].
      + rewrite lookup_insert_eq. intros [= <-]; simpl. by left.
      + rewrite lookup_insert_ne by done. apply IH.
    - intros Hrec.
      destruct (send_reminders_at_user env w slot st u) as [Hdb _].
      pose proof (remind_user_timezone w slot (st, []) u) as Htz.
      rewrite <- Hdb, Hrec in Htz. simpl in Htz.
      destruct (DB st !! u) as [old|] eqn:Hold; [|done].
      injection Htz as ->. by eapply IH. }
  split; [done|]. unfold resolve_tz.
  destruct Hvalid as [Hin | ->]; case_decide; done.
Qed.

End Reachable.

(** ** The handlers *)

Section Handlers.

Context (env : Env).

(** /start never overwrites: a user who has a record keeps it, a new user
    gets [UserRecord()], and nobody else is touched.  Sending /start again
    changes nothing. *)
Theorem cmd_start_keeps_existing_record uid st u :
  DB (cmd_start env uid st) !! u =
    (if decide (u = uid)
     then Some (default (UserRecord_default env) (DB st !! uid))
     else DB st !! u) ∧
  cmd_start env uid (cmd_start env uid st) = cmd_start env uid st.
Proof.
  split.
  - unfold cmd_start; simpl. case_decide as Hu.
    + subst u. destruct (DB st !! uid) as [rec|] eqn:Hrec; simpl; [done|].
      by rewrite lookup_insert_eq.
    + destruct (DB st !! uid); [done|]. by rewrite lookup_insert_ne.
  - unfold cmd_start; simpl.
    destruct (DB st !! uid) as [rec|] eqn:Hrec; simpl.
    + by rewrite Hrec.
    + by rewrite lookup_insert_eq.
Qed.

(** /sethandle stores the handle as it is given and keeps the user's
    timezone and dates, so that the dedup check answers as before; the other
    users are untouched and the file is saved. *)
Theorem cmd_sethandle_frame uid h (rest : list string) st u now slot tz :
  u ≠ uid →
  let st' := (cmd_sethandle env uid (h :: rest) st).1 in
  let old := default (UserRecord_default env) (DB st !! uid) in
  DB st' !! uid =
    Some {| handle := Some h; timezone := timezone old;
            last_notified := last_notified old |} ∧
  already_notified_today env now (DB st') uid slot tz =
    already_notified_today env now (DB st) uid slot tz ∧
  DB st' !! u = DB st !! u ∧
  DATA_FILE st' = save_db (DB st').
Proof.
  intros Hu st' old. subst st' old. unfold cmd_sethandle; simpl.
  rewrite lookup_insert_eq, lookup_insert_ne by done.
  split; [done|]. split; [|done].
  unfold already_notified_today. rewrite lookup_insert_eq; simpl.
  by destruct (DB st !! uid).
Qed.

(** /settz with a known zone stores it and keeps the user's handle and
    dates; the other users are untouched and the file is saved. *)
Theorem cmd_settz_stores_known_zone uid tz_name (rest : list string) st u :
  tz_name ∈ all_timezones env →
  u ≠ uid →
  let st' := (cmd_settz env uid (tz_name :: rest) st).1 in
  let old := default (UserRecord_default env) (DB st !! uid) in
  DB st' !! uid =
    Some {| handle := handle old; timezone := tz_name;
            last_notified := last_notified old |} ∧
  DB st' !! u = DB st !! u ∧
  DATA_FILE st' = save_db (DB st').
Proof.
  intros Hin Hu st' old. subst st' old. unfold cmd_settz.
  rewrite decide_True by done. simpl.
  by rewrite lookup_insert_eq, lookup_insert_ne.
Qed.

(** /sethandle and /settz of one user can be sent in either order: store,
    data file and replies are the same, for a known zone and for a rejected
    one. *)
Theorem cmd_sethandle_settz_commute uid h tz_name st :
  let a := cmd_settz env uid [tz_name] st in
  let ab := cmd_sethandle env uid [h] a.1 in
  let b := cmd_sethandle env uid [h] st in
  let ba := cmd_settz env uid [tz_name] b.1 in
  ab.1 = ba.1 ∧ ab.2 = b.2 ∧ a.2 = ba.2.
Proof.
  cbv zeta. unfold cmd_settz, cmd_sethandle.
  case_decide; simpl; [|done].
  rewrite !lookup_insert_eq; simpl. by rewrite !insert_insert_eq.
Qed.

(** /streak without a stored handle asks for one and does not call the
    feed. *)
Theorem cmd_streak_needs_handle fetch now uid st :
  (∀ rec, DB st !! uid = Some rec → truthy (handle rec) = false) →
  cmd_streak env fetch now uid st = ([], Returns streak_need_handle).
Proof.
  intros Hnone. unfold cmd_streak.
  destruct (DB st !! uid) as [rec|]; [|done].
  by rewrite (Hnone rec).
Qed.

(** /streak and the sweep judge alike: a user whom /streak tells that today
    is solved gets no message from a sweep that sees the same feed at the
    same time, whatever the slot. *)
Theorem streak_solved_means_no_reminder w slot uid st requests :
  cmd_streak env (feed w uid) (now w) uid st =
    (requests, Returns streak_solved) →
  ∀ text d, SendMessage uid text d ∉ (send_reminders env w slot st).2.
Proof.
  unfold cmd_streak. intros Hstreak text d Hin.
  assert (SendMessage uid text d ∈ events_of uid (send_reminders env w slot st).2)
    as Hev by by apply events_of_elem.
  destruct (DB st !! uid) as [rec|] eqn:Hrec; [|done].
  destruct (truthy (handle rec)) eqn:Hh; simpl in Hstreak; [|done].
  destruct (already_notified_today env (now w) (DB st) uid slot (timezone rec))
    eqn:Hnot.
  { destruct (send_reminders_skipped env w slot st uid rec Hrec) as [Hnil _];
      [auto|]. rewrite Hnil in Hev. by apply elem_of_nil in Hev. }
  pose proof (send_reminders_checked env w slot st uid rec Hrec Hh Hnot) as Hsweep.
  cbv zeta in Hsweep.
  destruct (cf_has_solved_today env (feed w uid) (now w) (handle rec)
              (timezone rec)) as [reqs [[|]|]]; try done.
  simpl in Hsweep. destruct Hsweep as [_ Hsweep]. rewrite Hsweep in Hev.
  apply events_of_elem in Hev as [_ Hev].
  by apply list_elem_of_fmap in Hev as (? & ? & _).
Qed.

(** /whoami shows a user without a record the placeholder for the handle
    and the default zone, and it shows the same right after /start; for
    every user the reply before and after /start is one and the same. *)
Theorem cmd_whoami_same_after_start uid st :
  cmd_whoami env uid (cmd_start env uid st) = cmd_whoami env uid st ∧
  (DB st !! uid = None →
   cmd_whoami env uid st =
   "👤 Siz:
• Handle: <b>yo‘q</b>
• Timezone: <b>" +:+ DEFAULT_TZ env +:+ "</b>
• Reminderlar: 08:00, 12:00, 22:00").
Proof.
  split.
  - unfold cmd_whoami, cmd_start; simpl.
    destruct (DB st !! uid) as [rec|] eqn:Hrec; simpl.
    + by rewrite Hrec.
    + by rewrite lookup_insert_eq.
  - intros Hnone. unfold cmd_whoami. rewrite Hnone. reflexivity.
Qed.

End Handlers.

(** ** [parse_time] *)

Lemma digit_cases (n : Z) :
  ∃ k : nat, (k < 10)%nat ∧ n mod 10 = Z.of_nat k ∧
             digit n = ascii_of_nat (48 + k).
Proof.
  pose proof (Z.mod_pos_bound n 10 ltac:(lia)) as Hbound.
  exists (Z.to_nat (n mod 10)). unfold digit. repeat split; lia.
Qed.

Lemma digit_value_digit (n : Z) : digit_value (digit n) = Some (n mod 10).
Proof.
  destruct (digit_cases n) as (k & Hk & -> & ->).
  do 10 (destruct k as [|k]; [reflexivity|]). lia.
Qed.

Lemma digit_not_colon (n : Z) : digit n ≠ ":"%char.
Proof.
  destruct (digit_cases n) as (k & Hk & _ & ->).
  do 10 (destruct k as [|k]; [discriminate|]). lia.
Qed.

Lemma py_int_pad2 (n : Z) : 0 ≤ n < 100 → py_int (pad2 n) = Some n.
Proof.
  intros Hn. unfold py_int, pad2, decimal_value.
  rewrite !digit_value_digit. cbn [mbind option_bind]. f_equal.
  rewrite (Z.mod_small (n / 10) 10)
    by (split; [apply Z.div_pos | apply Z.div_lt_upper_bound]; lia).
  pose proof (Z.div_mod n 10 ltac:(lia)). lia.
Qed.

(** [parse_time] reads a time written with two digits for the hour, a colon
    and two digits for the minute back as that hour and minute. *)
Theorem parse_time_reads_hh_mm (h m : Z) :
  0 ≤ h < 100 → 0 ≤ m < 100 →
  parse_time (pad2 h +:+ ":" +:+ pad2 m) = Some (h, m).
Proof.
  intros Hh Hm. unfold parse_time.
  assert (split_colon (pad2 h +:+ ":" +:+ pad2 m) = [pad2 h; pad2 m]) as ->.
  { unfold pad2.
    change (split_colon
              (String (digit (h / 10))
                 (String (digit h)
                    (String ":"%char
                       (String (digit (m / 10))
                          (String (digit m) EmptyString))))) =
            [String (digit (h / 10)) (String (digit h) EmptyString);
             String (digit (m / 10)) (String (digit m) EmptyString)]).
    cbn [split_colon].
    rewrite !(decide_False (P := digit _ = _)) by apply digit_not_colon.
    by rewrite decide_True. }
  by rewrite !py_int_pad2.
Qed.

(** ** The further properties on concrete runs *)


Lemma save_load_save_is_stable_witness :
  save_db (reloaded <$> db_tourist) = save_db db_tourist ∧
  load_db env_tashkent_host (save_db (reloaded <$> db_tourist)) =
    Some (reloaded <$> db_tourist).
Proof.
  apply (save_load_save_is_stable env_tashkent_host db_tourist).
  by vm_compute.
Defined.

(** An empty handle. *)
Lemma cf_has_solved_today_no_handle_witness :
  cf_has_solved_today env_tashkent_host (feed_accepted_0755 "42") slot_0800
    (Some EmptyString) "Asia/Tashkent" = ([], Returns false).
Proof.
  apply (cf_has_solved_today_no_handle env_tashkent_host). by vm_compute.
Defined.

Lemma cf_has_solved_today_bad_status_witness :
  (cf_has_solved_today env_tashkent_host fetch_failed_with_result slot_0800
     (Some "tourist") "Asia/Tashkent").2 = Returns false.
Proof.
  eapply (cf_has_solved_today_bad_status env_tashkent_host
            fetch_failed_with_result slot_0800 "tourist" "Asia/Tashkent");
    [reflexivity | discriminate].
Defined.

Lemma cf_has_solved_today_order_independent_witness :
  cf_has_solved_today env_tashkent_host
    (λ _, FeedData (Some "OK") subs_oldest_first) slot_0800
    (Some "tourist") "Asia/Tashkent" =
  cf_has_solved_today env_tashkent_host
    (λ _, FeedData (Some "OK") subs_newest_first) slot_0800
    (Some "tourist") "Asia/Tashkent".
Proof.
  eapply (cf_has_solved_today_order_independent env_tashkent_host);
    [reflexivity | reflexivity | | apply reverse_Permutation].
  unfold subs_oldest_first, subs_newest_first. convertible_list.
Defined.

(** With a timestamp that cannot be converted the order decides: listed
    first it makes the check raise, listed last it is never reached. *)
Example overflow_makes_the_order_matter :
  (cf_has_solved_today env_tashkent_host
     (λ _, FeedData (Some "OK") subs_overflow_first) slot_0800
     (Some "tourist") "Asia/Tashkent").2 = Raises ∧
  (cf_has_solved_today env_tashkent_host
     (λ _, FeedData (Some "OK") subs_overflow_last) slot_0800
     (Some "tourist") "Asia/Tashkent").2 = Returns true.
Proof. by vm_compute. Qed.

Lemma unknown_zone_read_as_default_witness :
  already_notified_today env_tashkent_host slot_0800 (DB st_reminded)
    "42" "08:00" "Mars/Phobos" =
  already_notified_today env_tashkent_host slot_0800 (DB st_reminded)
    "42" "08:00" "Asia/Tashkent" ∧
  cf_has_solved_today env_tashkent_host (feed_accepted_0755 "42") slot_0800
    (Some "tourist") "Mars/Phobos" =
  cf_has_solved_today env_tashkent_host (feed_accepted_0755 "42") slot_0800
    (Some "tourist") "Asia/Tashkent".
Proof.
  apply (unknown_zone_read_as_default env_tashkent_host).
  apply (bool_decide_unpack _). by vm_compute.
Defined.

(** Marking 08:00 at 08:00 and again at 12:00 of the same day. *)
Lemma mark_notified_twice_witness :
  mark_notified env_tashkent_host slot_1200 "42" "08:00"
    (mark_notified env_tashkent_host slot_0800 "42" "08:00" st_tourist) =
  mark_notified env_tashkent_host slot_0800 "42" "08:00" st_tourist.
Proof.
  apply (mark_notified_twice env_tashkent_host). by vm_compute.
Defined.

Lemma mark_notified_commute_witness :
  let a := mark_notified env_tashkent_host slot_1200 "7" "12:00"
             (mark_notified env_tashkent_host slot_0800 "42" "08:00" st_fresh) in
  let b := mark_notified env_tashkent_host slot_0800 "42" "08:00"
             (mark_notified env_tashkent_host slot_1200 "7" "12:00" st_fresh) in
  handle <$> DB a !! "42" = handle <$> DB b !! "42" ∧
  timezone <$> DB a !! "42" = timezone <$> DB b !! "42" ∧
  notified_entry (DB a) "42" "08:00" = notified_entry (DB b) "42" "08:00" ∧
  load_db env_tashkent_host (DATA_FILE a) = load_db env_tashkent_host (DATA_FILE b).
Proof.
  apply (mark_notified_commute env_tashkent_host slot_0800 slot_1200
           "42" "7" "08:00" "12:00" st_fresh "42" "08:00").
  left. discriminate.
Defined.

Lemma unsolved_user_is_reminded_and_marked_witness :
  let sweep := send_reminders env_tashkent_host (world_unsolved slot_0800)
                 "08:00" st_tourist in
  reminders_delivered "42" sweep.2 = 1%nat ∧
  SendMessage "42" (reminder_text "08:00" "tourist") true ∈ sweep.2 ∧
  notified_entry (DB sweep.1) "42" "08:00" =
    Some (isoformat (date_today env_tashkent_host slot_0800)).
Proof.
  apply (unsolved_user_is_reminded_and_marked env_tashkent_host
           (world_unsolved slot_0800) "08:00" st_tourist "42"
           {| handle := Some "tourist"; timezone := "Asia/Tashkent";
              last_notified := None |}); by vm_compute.
Defined.

(** The user reminded at 08:00 is passed over by a second 08:00 sweep. *)
Lemma notified_user_is_passed_over_witness :
  events_of "42"
    (send_reminders env_tashkent_host (world_unsolved slot_0800)
       "08:00" st_reminded).2 = [] ∧
  DB (send_reminders env_tashkent_host (world_unsolved slot_0800)
        "08:00" st_reminded).1 !! "42" =
  Some (mark_record env_tashkent_host
          {| handle := Some "tourist"; timezone := "Asia/Tashkent";
             last_notified := None |} "08:00" slot_0800).
Proof.
  apply (notified_user_is_passed_over env_tashkent_host
           (world_unsolved slot_0800) "08:00" st_reminded "42").
  - vm_compute. reflexivity.
  - vm_compute. reflexivity.
Defined.

Lemma sweep_changes_swept_slot_only_witness :
  let st' := (send_reminders env_tashkent_host (world_unsolved slot_1200)
                "12:00" st_reminded).1 in
  handle <$> DB st' !! "42" = handle <$> DB st_reminded !! "42" ∧
  timezone <$> DB st' !! "42" = timezone <$> DB st_reminded !! "42" ∧
  notified_entry (DB st') "42" "08:00" =
    notified_entry (DB st_reminded) "42" "08:00".
Proof.
  apply (sweep_changes_swept_slot_only env_tashkent_host
           (world_unsolved slot_1200) "12:00" st_reminded "42" "08:00").
  discriminate.
Defined.

(** User 42 in a store of one and in a store of two. *)
Lemma sweep_treats_users_independently_witness :
  let one := send_reminders env_tashkent_host (world_unsolved slot_0800)
               "08:00" st_tourist in
  let two := send_reminders env_tashkent_host (world_unsolved slot_0800)
               "08:00" st_two_users in
  DB one.1 !! "42" = DB two.1 !! "42" ∧
  events_of "42" one.2 = events_of "42" two.2.
Proof.
  apply (sweep_treats_users_independently env_tashkent_host
           (world_unsolved slot_0800) "08:00" st_tourist st_two_users "42").
  by vm_compute.
Defined.

Lemma reachable_state_survives_restart_witness :
  load_db env_tashkent_host (DATA_FILE st_reminded) =
  Some (reloaded <$> DB st_reminded).
Proof.
  apply (reachable_state_survives_restart env_tashkent_host st_reminded).
  unfold st_reminded, st_registered, st_fresh.
  apply reachable_sweep, reachable_sethandle, reachable_start, reachable_init.
Defined.

Lemma reachable_timezones_are_valid_witness :
  ("Asia/Tashkent" ∈ all_timezones env_tashkent_host ∨
   "Asia/Tashkent" = DEFAULT_TZ env_tashkent_host) ∧
  resolve_tz env_tashkent_host "Asia/Tashkent" = "Asia/Tashkent".
Proof.
  apply (reachable_timezones_are_valid env_tashkent_host st_reminded "42"
           (mark_record env_tashkent_host
              {| handle := Some "tourist"; timezone := "Asia/Tashkent";
                 last_notified := None |} "08:00" slot_0800)).
  - unfold st_reminded, st_registered, st_fresh.
    apply reachable_sweep, reachable_sethandle, reachable_start, reachable_init.
  - by vm_compute.
Defined.

(** /sethandle for user 42 in the store of two users. *)
Lemma cmd_sethandle_frame_witness :
  let st' := (cmd_sethandle env_tashkent_host "42" ["Petr"] st_two_users).1 in
  DB st' !! "42" =
    Some {| handle := Some "Petr"; timezone := "Asia/Tashkent";
            last_notified := None |} ∧
  already_notified_today env_tashkent_host slot_0800 (DB st')
    "42" "08:00" "Asia/Tashkent" =
  already_notified_today env_tashkent_host slot_0800 (DB st_two_users)
    "42" "08:00" "Asia/Tashkent" ∧
  DB st' !! "7" = DB st_two_users !! "7" ∧
  DATA_FILE st' = save_db (DB st').
Proof.
  destruct (cmd_sethandle_frame env_tashkent_host "42" "Petr" [] st_two_users
              "7" slot_0800 "08:00" "Asia/Tashkent")
    as (Hrec & Hcheck & Hother & Hfile); [discriminate|].
  cbv zeta. split; [rewrite Hrec; vm_compute; reflexivity|]. by split.
Defined.

Lemma cmd_settz_stores_known_zone_witness :
  let st' := (cmd_settz env_tashkent_host "42" ["Asia/Tokyo"] st_two_users).1 in
  timezone <$> DB st' !! "42" = Some "Asia/Tokyo" ∧
  handle <$> DB st' !! "42" = Some (Some "tourist") ∧
  DB st' !! "7" = DB st_two_users !! "7".
Proof.
  destruct (cmd_settz_stores_known_zone env_tashkent_host "42" "Asia/Tokyo" []
              st_two_users "7") as (Hrec & Hother & _).
  - apply (bool_decide_unpack _). vm_compute. exact I.
  - discriminate.
  - cbv zeta. rewrite Hrec. split; [done|]. split; [|done].
    vm_compute. reflexivity.
Defined.

(** User 7 has no handle; user 9 has no record. *)
Lemma cmd_streak_needs_handle_witness :
  cmd_streak env_tashkent_host (feed_accepted_0755 "7") slot_0800 "7"
    st_two_users = ([], Returns streak_need_handle) ∧
  cmd_streak env_tashkent_host (feed_accepted_0755 "9") slot_0800 "9"
    st_two_users = ([], Returns streak_need_handle).
Proof.
  split; apply (cmd_streak_needs_handle env_tashkent_host);
    intros rec; vm_compute; intros [= <-]; reflexivity.
Defined.

Lemma streak_solved_means_no_reminder_witness :
  cmd_streak env_tashkent_host (feed_accepted_0755 "42") slot_0800 "42"
    st_tourist = (["tourist"], Returns streak_solved) ∧
  SendMessage "42" (reminder_text "08:00" "tourist") true ∉
    (send_reminders env_tashkent_host (world_solved slot_0800)
       "08:00" st_tourist).2.
Proof.
  assert (cmd_streak env_tashkent_host (feed_accepted_0755 "42") slot_0800
            "42" st_tourist = (["tourist"], Returns streak_solved)) as Hsolved
    by (vm_compute; reflexivity).
  split; [done|].
  by apply (streak_solved_means_no_reminder env_tashkent_host
              (world_solved slot_0800) "08:00" "42" st_tourist ["tourist"]).
Defined.

Lemma parse_time_reads_hh_mm_witness : parse_time "22:00" = Some (22, 0).
Proof. apply (parse_time_reads_hh_mm 22 0); lia. Defined.

(** The user in Tashkent on the Tashkent host: reminded once by two
    sweeps. *)
Lemma two_sweeps_at_most_one_when_dates_agree_witness :
  (reminders_delivered "42"
     (send_reminders env_tashkent_host (world_unsolved slot_0800)
        "08:00" st_tourist).2 +
   reminders_delivered "42"
     (send_reminders env_tashkent_host (world_unsolved slot_1200) "08:00"
        (send_reminders env_tashkent_host (world_unsolved slot_0800)
           "08:00" st_tourist).1).2 ≤ 1)%nat.
Proof.
  apply (two_sweeps_at_most_one_when_dates_agree env_tashkent_host
           (world_unsolved slot_0800) (world_unsolved slot_1200)
           "08:00" st_tourist "42").
  intros rec Hrec.
  assert (DB st_tourist !! "42" =
          Some {| handle := Some "tourist"; timezone := "Asia/Tashkent";
                  last_notified := None |}) as Hknown
    by (vm_compute; reflexivity).
  rewrite Hknown in Hrec. injection Hrec as <-. vm_compute. reflexivity.
Defined.

Lemma already_notified_after_mark_witness :
  already_notified_today env_tashkent_host slot_0800
    (DB (mark_notified env_tashkent_host slot_0800 "42" "08:00" st_tourist))
    "42" "08:00" "Asia/Tashkent" = true.
Proof.
  apply (already_notified_after_mark env_tashkent_host). vm_compute. reflexivity.
Defined.

Lemma already_notified_today_never_marked_witness :
  already_notified_today env_tashkent_host slot_0800 (DB st_registered)
    "42" "08:00" "Asia/Tashkent" = false.
Proof.
  apply (already_notified_today_never_marked env_tashkent_host).
  unfold st_registered, st_fresh.
  apply never_marked_sethandle, never_marked_start, never_marked_init.
Defined.


(** User 9 has no record. *)
Lemma cmd_whoami_same_after_start_witness :
  cmd_whoami env_tashkent_host "9" st_two_users =
  "👤 Siz:
• Handle: <b>yo‘q</b>
• Timezone: <b>Asia/Tashkent</b>
• Reminderlar: 08:00, 12:00, 22:00".
Proof.
  destruct (cmd_whoami_same_after_start env_tashkent_host "9" st_two_users)
    as [_ Hreply].
  rewrite Hreply; by vm_compute.
Defined.
